(** * MyBlog: a shallow embedding of [main.py]

    The blog is a Flask application: route handlers over three relational
    tables (users, blog_posts, comments), with the caller's identity kept
    in a signed session cookie by Flask-Login.

    The embedding follows the source function by function.  A handler is a
    computation in a small state-and-exception monad over a [World], which
    is the database together with the session cookie of the one client
    that is talking to the server.  Everything a handler reads from outside
    the program is an argument: the validated form (or [None] when
    [validate_on_submit()] is false, which covers GET requests and forms
    rejected by [forms.py]), the salt drawn by [generate_password_hash],
    and [date.today()].

    What is modelled of the libraries:
    - Flask-Login: [current_user] resolves the session through [load_user]
      (404 on a stale id), [login_required] answers 401 to an anonymous
      caller (no login view is configured), [login_user]/[logout_user] set
      and drop the session's user id;
    - SQLAlchemy on PostgreSQL (the store that [POSTGRESQL_DB] names):
      integer primary keys come from a per-table sequence; a value that
      does not fit its [String(n)] column is refused before anything is
      written; the [unique=True] columns ([users.email],
      [blog_posts.title]) are checked when a commit is flushed, and an
      INSERT refused by them has already taken its id from the sequence;
      a refused commit writes no row; a table is read in the order of its
      rows on disk, which is the order of insertion with an updated row
      moved to the end; handing the anonymous user object to a relationship
      attribute raises [AttributeError]; deleting a post whose comments
      would be left without a parent is rejected, since [comments.post_id]
      is not nullable;
    - Flask: an exception other than an [abort], and a view that returns
      [None], are answered with status 500.
    The templates are not among the sources: of a rendered page the model
    keeps the arguments the handler passes and, from the spec, that it
    shows and clears the pending flash messages.  The CSRF token that
    Flask-WTF keeps in the session, and [print] output, are not modelled.

    The file has three parts: the program, the vocabulary in which its
    properties are stated (example worlds, the transition relation, the
    well-formedness invariant), and the properties themselves. *)

From Stdlib Require Import ZArith List String Ascii Bool Lia.
Import ListNotations.
Local Open Scope string_scope.
Local Open Scope Z_scope.

(** ** Tables *)

Module User.
Record t : Type := make
  { id : Z; email : string; password : string; name : string }.
End User.

Module BlogPost.
Record t : Type := make
  { id : Z; author_id : Z; title : string; subtitle : string;
    date : string; body : string; img_url : string }.

(** Two rows with the same value in every column. *)
Definition eqb (a b : t) : bool :=
  Z.eqb (id a) (id b) && Z.eqb (author_id a) (author_id b)
  && String.eqb (title a) (title b) && String.eqb (subtitle a) (subtitle b)
  && String.eqb (date a) (date b) && String.eqb (body a) (body b)
  && String.eqb (img_url a) (img_url b).
End BlogPost.

Module Comment.
Record t : Type := make
  { id : Z; text : string; author_id : Z; post_id : Z }.
End Comment.

(** The database: the rows of each table in the order in which the store
    reads them, and the next value of each primary-key sequence. *)
Record Db : Type := mkDb
  { users : list User.t;
    blog_posts : list BlogPost.t;
    comments : list Comment.t;
    users_id_seq : Z;
    blog_posts_id_seq : Z;
    comments_id_seq : Z }.

(** The client's session cookie: Flask-Login's [_user_id] and the pending
    flash messages. *)
Record Session : Type := mkSession
  { _user_id : option Z; _flashes : list string }.

Record World : Type := mkWorld { db : Db; session : Session }.

(** [db.create_all()] on an empty database, and a client without cookie. *)
Definition empty_db : Db := mkDb [] [] [] 1 1 1.
Definition no_session : Session := mkSession None [].
Definition initial_world : World := mkWorld empty_db no_session.

(** ** Exceptions, responses and the handler monad *)

Inductive Exception : Type :=
| HTTPException (code : Z)   (* abort(code), get_or_404, unauthorized() *)
| AttributeError             (* attribute missing on AnonymousUserMixin *)
| DataError                  (* a value does not fit its column *)
| IntegrityError.            (* the store rejected the flush *)

Inductive TemplateArg : Type :=
| arg_logged_in (b : bool)
| arg_all_posts (posts : list BlogPost.t)
| arg_post (post : BlogPost.t)
| arg_form (form : string)
| arg_is_edit (b : bool).

(** The value under a name in the JSON answer of [/all-users].  The answer
    is the object [{"users": mapping}]; [jsonify] below carries the
    mapping, a Python dictionary in insertion order. *)
Record UserJson : Type := mkUserJson
  { json_id : Z; json_name : string; json_email : string }.

Inductive Response : Type :=
| render_template (template : string) (args : list TemplateArg)
| redirect (endpoint : string) (post_id : option Z)
| jsonify (user_dict : list (string * UserJson))
| error_response (code : Z).

Definition status_code (r : Response) : Z :=
  match r with
  | render_template _ _ => 200
  | redirect _ _ => 302
  | jsonify _ => 200
  | error_response c => c
  end.

Definition M (A : Type) : Type := World -> (Exception + A) * World.

Definition ret {A : Type} (a : A) : M A := fun w => (inr a, w).

Definition bind {A B : Type} (m : M A) (k : A -> M B) : M B :=
  fun w =>
    match m w with
    | (inl e, w') => (inl e, w')
    | (inr a, w') => k a w'
    end.

Definition raise {A : Type} (e : Exception) : M A := fun w => (inl e, w).

Definition abort {A : Type} (code : Z) : M A := raise (HTTPException code).

Declare Scope handler_scope.
Delimit Scope handler_scope with handler.
Notation "x <- c ;; k" := (bind c (fun x => k))
  (at level 61, c at next level, right associativity) : handler_scope.
Notation "c ;; k" := (bind c (fun _ => k))
  (at level 61, right associativity) : handler_scope.
Local Open Scope handler_scope.

Definition get_db : M Db := fun w => (inr (db w), w).
Definition put_db (d : Db) : M unit :=
  fun w => (inr tt, mkWorld d (session w)).
Definition get_session : M Session := fun w => (inr (session w), w).
Definition put_session (s : Session) : M unit :=
  fun w => (inr tt, mkWorld (db w) s).

(** What Flask makes of a view: an [abort] becomes its status, any other
    exception becomes 500, and so does a view that returns [None]. *)
Definition full_dispatch_request (view : M (option Response))
  : World -> Response * World :=
  fun w =>
    match view w with
    | (inr (Some r), w') => (r, w')
    | (inr None, w') => (error_response 500, w')
    | (inl (HTTPException code), w') => (error_response code, w')
    | (inl _, w') => (error_response 500, w')
    end.

(** ** Store operations *)

Definition get_User (ident : Z) (d : Db) : option User.t :=
  find (fun u => Z.eqb (User.id u) ident) (users d).

Definition get_BlogPost (ident : Z) (d : Db) : option BlogPost.t :=
  find (fun p => Z.eqb (BlogPost.id p) ident) (blog_posts d).

(** [db.get_or_404(Model, ident)] *)
Definition get_or_404 {A : Type} (get : Db -> option A) : M A :=
  d <- get_db ;;
  match get d with
  | Some row => ret row
  | None => abort 404
  end.

(** [db.session.execute(db.select(User).where(User.email == e)).scalar()] *)
Definition select_User_by_email (e : string) (d : Db) : option User.t :=
  find (fun u => String.eqb (User.email u) e) (users d).

(** The [comments] relationship of a post. *)
Definition BlogPost_comments (d : Db) (p : BlogPost.t) : list Comment.t :=
  filter (fun c => Z.eqb (Comment.post_id c) (BlogPost.id p)) (comments d).

(** A [String(n)] column holds at most [n] characters; a string of the
    model is a sequence of characters. *)
Definition fits (width : nat) (s : string) : bool :=
  Nat.leb (String.length s) width.

(** [db.session.add(User(...)); db.session.commit()]: the three columns are
    [String(100)]; the row gets the next id of the sequence; a second row
    with the same email is an integrity error, raised after the id has been
    taken. *)
Definition add_User (email password name : string) : M User.t :=
  d <- get_db ;;
  if negb (fits 100 email && fits 100 password && fits 100 name)
  then raise DataError
  else if existsb (fun u => String.eqb (User.email u) email) (users d)
  then
    put_db (mkDb (users d) (blog_posts d) (comments d)
                 (users_id_seq d + 1) (blog_posts_id_seq d)
                 (comments_id_seq d)) ;;
    raise IntegrityError
  else
    let new_user := User.make (users_id_seq d) email password name in
    put_db (mkDb (users d ++ [new_user])%list (blog_posts d) (comments d)
                 (users_id_seq d + 1) (blog_posts_id_seq d)
                 (comments_id_seq d)) ;;
    ret new_user.

(** [db.session.add(BlogPost(...)); db.session.commit()]: title, subtitle,
    date and image are [String(250)], the body is [Text]; titles are
    unique, and an INSERT that the uniqueness refuses has taken its id. *)
Definition add_BlogPost (author_id : Z)
    (title subtitle date body img_url : string) : M BlogPost.t :=
  d <- get_db ;;
  if negb (fits 250 title && fits 250 subtitle && fits 250 date
           && fits 250 img_url)
  then raise DataError
  else if existsb (fun p => String.eqb (BlogPost.title p) title) (blog_posts d)
  then
    put_db (mkDb (users d) (blog_posts d) (comments d)
                 (users_id_seq d) (blog_posts_id_seq d + 1)
                 (comments_id_seq d)) ;;
    raise IntegrityError
  else
    let new_post :=
      BlogPost.make (blog_posts_id_seq d) author_id title subtitle date
                    body img_url in
    put_db (mkDb (users d) (blog_posts d ++ [new_post])%list (comments d)
                 (users_id_seq d) (blog_posts_id_seq d + 1)
                 (comments_id_seq d)) ;;
    ret new_post.

(** [db.session.add(Comment(...)); db.session.commit()] *)
Definition add_Comment (text : string) (author_id post_id : Z)
  : M Comment.t :=
  d <- get_db ;;
  let new_comment := Comment.make (comments_id_seq d) text author_id post_id in
  put_db (mkDb (users d) (blog_posts d) (comments d ++ [new_comment])%list
               (users_id_seq d) (blog_posts_id_seq d)
               (comments_id_seq d + 1)) ;;
  ret new_comment.

(** The attribute assignments of [edit_post] followed by the commit.  The
    row keeps its id and its date.  When no attribute has changed nothing is
    sent to the store.  Otherwise the new title, subtitle and image must fit
    their columns, the new title must not be the title of another row, and
    the row is written anew, after the rows that were there. *)
Definition update_BlogPost (post : BlogPost.t) (author_id : Z)
    (title subtitle body img_url : string) : M unit :=
  d <- get_db ;;
  let edited :=
    BlogPost.make (BlogPost.id post) author_id title subtitle
                  (BlogPost.date post) body img_url in
  if BlogPost.eqb edited post then ret tt
  else if negb (fits 250 title && fits 250 subtitle && fits 250 img_url)
  then raise DataError
  else if existsb (fun p => negb (Z.eqb (BlogPost.id p) (BlogPost.id post))
                            && String.eqb (BlogPost.title p) title)
                  (blog_posts d)
  then raise IntegrityError
  else
    put_db (mkDb (users d)
                 (filter (fun p => negb (Z.eqb (BlogPost.id p)
                                               (BlogPost.id post)))
                         (blog_posts d)
                  ++ [edited])%list
                 (comments d)
                 (users_id_seq d) (blog_posts_id_seq d) (comments_id_seq d)).

(** [db.session.delete(post); db.session.commit()]: the relationship has no
    delete cascade, so the flush would blank [post_id] of the post's
    comments, which the column does not allow. *)
Definition delete_BlogPost (post : BlogPost.t) : M unit :=
  d <- get_db ;;
  match BlogPost_comments d post with
  | _ :: _ => raise IntegrityError
  | [] =>
      put_db (mkDb (users d)
                   (filter (fun p => negb (Z.eqb (BlogPost.id p) (BlogPost.id post)))
                           (blog_posts d))
                   (comments d)
                   (users_id_seq d) (blog_posts_id_seq d) (comments_id_seq d))
  end.

(** ** Session authenticator (Flask-Login) *)

Inductive Identity : Type :=
| AnonymousUserMixin
| Authenticated (user : User.t).

Definition is_authenticated (cu : Identity) : bool :=
  match cu with
  | AnonymousUserMixin => false
  | Authenticated _ => true
  end.

(** [load_user]: the user loader handed to the login manager. *)
Definition load_user (ident : Z) : M User.t := get_or_404 (get_User ident).

(** The [current_user] proxy: the session's user, loaded on access. *)
Definition current_user : M Identity :=
  s <- get_session ;;
  match _user_id s with
  | None => ret AnonymousUserMixin
  | Some ident => u <- load_user ident ;; ret (Authenticated u)
  end.

(** [current_user.id]: the anonymous user object has no such attribute. *)
Definition Identity_id (cu : Identity) : M Z :=
  match cu with
  | Authenticated u => ret (User.id u)
  | AnonymousUserMixin => raise AttributeError
  end.

(** A relationship attribute accepts mapped instances only. *)
Definition mapped_User (cu : Identity) : M User.t :=
  match cu with
  | Authenticated u => ret u
  | AnonymousUserMixin => raise AttributeError
  end.

Definition login_user (user : User.t) : M unit :=
  s <- get_session ;;
  put_session (mkSession (Some (User.id user)) (_flashes s)).

Definition logout_user : M unit :=
  s <- get_session ;;
  put_session (mkSession None (_flashes s)).

Definition flash (message : string) : M unit :=
  s <- get_session ;;
  put_session (mkSession (_user_id s) (_flashes s ++ [message])%list).

(** Modelled from the spec: the templates are not among the sources.  By
    the spec's glossary a flash notice is one-shot, shown on the next
    rendered page: rendering a page takes the pending flashes out of the
    session.  What a page shows beyond the arguments that the handler
    passes is not modelled. *)
Definition render (template : string) (args : list TemplateArg)
  : M (option Response) :=
  s <- get_session ;;
  put_session (mkSession (_user_id s) []) ;;
  ret (Some (render_template template args)).

(** [@login_required] *)
Definition login_required {A : Type} (func : M A) : M A :=
  cu <- current_user ;;
  if negb (is_authenticated cu) then abort 401 else func.

(** ** Decorators of [main.py] *)

(** [get_current_user]: looks at [current_user], prints, calls [func]. *)
Definition get_current_user {A : Type} (func : M A) : M A :=
  _ <- current_user ;;
  func.

(** [admin_only]: [login_required] around the wrapper whose test is
    [not current_user.is_authenticated and current_user.id != 1]; [and]
    evaluates its right operand only when the left one is true. *)
Definition admin_only {A : Type} (f : M A) : M A :=
  login_required
    (cu <- current_user ;;
     if negb (is_authenticated cu) then
       ident <- Identity_id cu ;;
       if negb (Z.eqb ident 1) then abort 403 else f
     else f).

(** ** Forms

    [forms.py] is not part of the sources; a form is what the handler reads
    from it after [validate_on_submit()] has answered [True]. *)

Module RegisterForm.
Record t : Type := make
  { email : string; password : string; name : string }.
End RegisterForm.

Module LoginForm.
Record t : Type := make { email : string; password : string }.
End LoginForm.

Module CommentForm.
Record t : Type := make { body : string }.
End CommentForm.

Module CreatePostForm.
Record t : Type := make
  { title : string; subtitle : string; img_url : string; body : string }.
End CreatePostForm.

(** ** [date.today().strftime("%B %d, %Y")] *)

Module date.
Record t : Type := make { year : Z; month : Z; day : Z }.
End date.

Definition month_names : list string :=
  [ "January"; "February"; "March"; "April"; "May"; "June"; "July";
    "August"; "September"; "October"; "November"; "December" ].

(** [%B] *)
Definition strftime_B (month : Z) : string :=
  nth (Z.to_nat (month - 1)) month_names "".

Definition digit (n : Z) : ascii := ascii_of_nat (48 + Z.to_nat n).

(** [%d]: the day of the month on two digits. *)
Definition strftime_d (day : Z) : string :=
  String (digit (day / 10)) (String (digit (day mod 10)) "").

Fixpoint decimal (fuel : nat) (n : Z) (acc : string) : string :=
  match fuel with
  | O => acc
  | S fuel' =>
      let acc' := String (digit (n mod 10)) acc in
      if n <? 10 then acc' else decimal fuel' (n / 10) acc'
  end.

(** [%Y]: the year in decimal, without padding; a [date] has a year between
    1 and 9999, so four digits are enough. *)
Definition strftime_Y (year : Z) : string := decimal 4 year "".

Definition strftime_B_d_Y (d : date.t) : string :=
  strftime_B (date.month d) ++ " " ++ strftime_d (date.day d) ++ ", "
  ++ strftime_Y (date.year d).

(** ** Python dictionaries with string keys

    Assigning to a key that is present replaces its value in place. *)

Fixpoint dict_set {V : Type} (k : string) (v : V) (d : list (string * V))
  : list (string * V) :=
  match d with
  | [] => [(k, v)]
  | (k', v') :: d' =>
      if String.eqb k' k then (k, v) :: d' else (k', v') :: dict_set k v d'
  end.

Fixpoint dict_get {V : Type} (k : string) (d : list (string * V))
  : option V :=
  match d with
  | [] => None
  | (k', v') :: d' => if String.eqb k' k then Some v' else dict_get k d'
  end.

(** ** Request handlers *)

Definition user_json (user : User.t) : UserJson :=
  mkUserJson (User.id user) (User.name user) (User.email user).

(** [/all-users] *)
Definition get_all_users : M (option Response) :=
  d <- get_db ;;
  let all_users := users d in
  let user_dict :=
    fold_left (fun acc user => dict_set (User.name user) (user_json user) acc)
              all_users [] in
  ret (Some (jsonify user_dict)).

Section Werkzeug.

(** [werkzeug.security]: the hash of a password under a salt, and the
    check of a password against a stored hash. *)
Variable generate_password_hash : string -> string -> string.
Variable check_password_hash : string -> string -> bool.

(** [/register] *)
Definition register (form : option RegisterForm.t) (salt : string)
  : M (option Response) :=
  get_current_user
    match form with
    | Some f =>
        let user_email := RegisterForm.email f in
        let user_password := RegisterForm.password f in
        let user_name := RegisterForm.name f in
        d <- get_db ;;
        match select_User_by_email user_email d with
        | Some _ =>
            flash "You already have an account with this email, please login." ;;
            ret (Some (redirect "login" None))
        | None =>
            let hashed_and_salted_pwd :=
              generate_password_hash user_password salt in
            new_user <- add_User user_email hashed_and_salted_pwd user_name ;;
            login_user new_user ;;
            ret (Some (redirect "get_all_posts" None))
        end
    | None =>
        cu <- current_user ;;
        render "register.html"
          [arg_form "RegisterForm";
           arg_logged_in (is_authenticated cu)]
    end.

(** [/login] *)
Definition login (form : option LoginForm.t) : M (option Response) :=
  get_current_user
    match form with
    | Some f =>
        let user_email := LoginForm.email f in
        let user_password := LoginForm.password f in
        d <- get_db ;;
        match select_User_by_email user_email d with
        | None =>
            flash "That email does not exist, please try again." ;;
            ret (Some (redirect "login" None))
        | Some user =>
            if negb (check_password_hash (User.password user) user_password)
            then
              flash "Password incorrect, please try again." ;;
              ret (Some (redirect "login" None))
            else
              cu <- current_user ;;
              if is_authenticated cu then
                flash "You are already logged in!" ;;
                ret (Some (redirect "login" None))
              else
                login_user user ;;
                _ <- load_user (User.id user) ;;
                ret (Some (redirect "get_all_posts" None))
        end
    | None =>
        cu <- current_user ;;
        render "login.html"
          [arg_form "LoginForm";
           arg_logged_in (is_authenticated cu)]
    end.

End Werkzeug.

(** [/logout]: the [return] sits inside the [if]; the other path falls off
    the end of the function. *)
Definition logout : M (option Response) :=
  get_current_user
    (cu <- current_user ;;
     if is_authenticated cu then
       logout_user ;;
       ret (Some (redirect "get_all_posts" None))
     else ret None).

(** [/]: the select has no [ORDER BY]; the posts are listed in the order
    in which the table holds its rows. *)
Definition get_all_posts : M (option Response) :=
  get_current_user
    (d <- get_db ;;
     let posts := blog_posts d in
     cu <- current_user ;;
     render "index.html"
       [arg_all_posts posts; arg_logged_in (is_authenticated cu)]).

(** [Comment(text=..., comment_author=..., parent_post=...)], added to the
    session and committed. *)
Definition create_Comment (text : string) (comment_author : Identity)
    (parent_post : BlogPost.t) : M Comment.t :=
  author <- mapped_User comment_author ;;
  add_Comment text (User.id author) (BlogPost.id parent_post).

(** [/post/<int:post_id>] *)
Definition show_post (post_id : Z) (comment_form : option CommentForm.t)
  : M (option Response) :=
  get_current_user
    (requested_post <- get_or_404 (get_BlogPost post_id) ;;
     match comment_form with
     | Some f =>
         cu <- current_user ;;
         _ <- create_Comment (CommentForm.body f) cu requested_post ;;
         ret tt
     | None => ret tt
     end ;;
     cu <- current_user ;;
     render "post.html"
       [arg_post requested_post;
        arg_logged_in (is_authenticated cu);
        arg_form "CommentForm"]).

(** [/new-post] *)
Definition add_new_post (form : option CreatePostForm.t) (today : date.t)
  : M (option Response) :=
  admin_only
    (get_current_user
       match form with
       | Some f =>
           cu <- current_user ;;
           author <- mapped_User cu ;;
           _ <- add_BlogPost (User.id author)
                  (CreatePostForm.title f) (CreatePostForm.subtitle f)
                  (strftime_B_d_Y today)
                  (CreatePostForm.body f) (CreatePostForm.img_url f) ;;
           ret (Some (redirect "get_all_posts" None))
       | None =>
           cu <- current_user ;;
           render "make-post.html"
             [arg_form "CreatePostForm";
              arg_logged_in (is_authenticated cu)]
       end).

(** [/edit-post/<int:post_id>] *)
Definition edit_post (post_id : Z) (edit_form : option CreatePostForm.t)
  : M (option Response) :=
  admin_only
    (get_current_user
       (post <- get_or_404 (get_BlogPost post_id) ;;
        match edit_form with
        | Some f =>
            cu <- current_user ;;
            author <- mapped_User cu ;;
            update_BlogPost post (User.id author)
              (CreatePostForm.title f) (CreatePostForm.subtitle f)
              (CreatePostForm.body f) (CreatePostForm.img_url f) ;;
            ret (Some (redirect "show_post" (Some (BlogPost.id post))))
        | None =>
            cu <- current_user ;;
            render "make-post.html"
              [arg_form "CreatePostForm"; arg_is_edit true;
               arg_logged_in (is_authenticated cu)]
        end)).

(** [/delete/<int:post_id>] *)
Definition delete_post (post_id : Z) : M (option Response) :=
  admin_only
    (get_current_user
       (post_to_delete <- get_or_404 (get_BlogPost post_id) ;;
        delete_BlogPost post_to_delete ;;
        ret (Some (redirect "get_all_posts" None)))).

(** [/about] and [/contact] *)
Definition about : M (option Response) :=
  get_current_user
    (cu <- current_user ;;
     render "about.html"
       [arg_logged_in (is_authenticated cu)]).

Definition contact : M (option Response) :=
  get_current_user
    (cu <- current_user ;;
     render "contact.html"
       [arg_logged_in (is_authenticated cu)]).

(** ** The HTTP surface *)

Inductive Request : Type :=
| req_all_users
| req_register (form : option RegisterForm.t) (salt : string)
| req_login (form : option LoginForm.t)
| req_logout
| req_index
| req_post (post_id : Z) (form : option CommentForm.t)
| req_new_post (form : option CreatePostForm.t) (today : date.t)
| req_edit_post (post_id : Z) (form : option CreatePostForm.t)
| req_delete (post_id : Z)
| req_about
| req_contact.

Section App.

Variable generate_password_hash : string -> string -> string.
Variable check_password_hash : string -> string -> bool.

Definition view_function (r : Request) : M (option Response) :=
  match r with
  | req_all_users => get_all_users
  | req_register form salt => register generate_password_hash form salt
  | req_login form => login check_password_hash form
  | req_logout => logout
  | req_index => get_all_posts
  | req_post post_id form => show_post post_id form
  | req_new_post form today => add_new_post form today
  | req_edit_post post_id form => edit_post post_id form
  | req_delete post_id => delete_post post_id
  | req_about => about
  | req_contact => contact
  end.

Definition handle (r : Request) : World -> Response * World :=
  full_dispatch_request (view_function r).

End App.

(** * Vocabulary of the properties *)

(** ** Running the application *)

Section Serve.

Variable generate_password_hash : string -> string -> string.
Variable check_password_hash : string -> string -> bool.

(** The world after a sequence of requests of one client. *)
Definition serve (rs : list Request) (w : World) : World :=
  fold_left
    (fun w r => snd (handle generate_password_hash check_password_hash r w))
    rs w.

End Serve.

(** A concrete stand-in for the password hash, for running examples. *)
Definition toy_hash (password salt : string) : string :=
  salt ++ "$" ++ password.
Definition toy_check (pwhash password : string) : bool :=
  match index 0 "$" pwhash with
  | Some n =>
      String.eqb (substring (S n) (Nat.sub (String.length pwhash) (S n)) pwhash)
                 password
  | None => false
  end.

(** ** Example worlds *)


(** Alice registers first and becomes the admin, writes a post and logs
    out; Bob registers from the same browser and stays logged in. *)
Definition bob_logged_in : World :=
  serve toy_hash toy_check
    [ req_register (Some (RegisterForm.make "a@x.com" "pa" "Alice")) "s1";
      req_new_post (Some (CreatePostForm.make "P1" "sub" "img" "body"))
                   (date.make 2024 6 5);
      req_logout;
      req_register (Some (RegisterForm.make "b@x.com" "pb" "Bob")) "s2" ]
    initial_world.

Definition alice : User.t := User.make 1 "a@x.com" "s1$pa" "Alice".
Definition bob : User.t := User.make 2 "b@x.com" "s2$pb" "Bob".

(** Alice, the admin, has written two posts. *)
Definition two_posts : World :=
  serve toy_hash toy_check
    [ req_register (Some (RegisterForm.make "a@x.com" "pa" "Alice")) "s1";
      req_new_post (Some (CreatePostForm.make "First" "sub" "img" "body"))
                   (date.make 2024 6 5);
      req_new_post (Some (CreatePostForm.make "Second" "sub" "img" "body"))
                   (date.make 2024 6 6) ]
    initial_world.


Definition first_title_again : CreatePostForm.t :=
  CreatePostForm.make "First" "new sub" "new img" "new body".

(** A text of [n] characters. *)
Fixpoint text_of_length (n : nat) : string :=
  match n with
  | O => ""
  | S n' => String "a"%char (text_of_length n')
  end.

(** Two people called Bob register, one after the other. *)
Definition two_bobs : World :=
  serve toy_hash toy_check
    [ req_register (Some (RegisterForm.make "bob@x.com" "p1" "Bob")) "s1";
      req_logout;
      req_register (Some (RegisterForm.make "bob@y.com" "p2" "Bob")) "s2" ]
    initial_world.

(** ** Registration and login *)


Definition wrong_password_message : string :=
  "Password incorrect, please try again.".


(** ** Posts *)






(** The number that a string of decimal digits denotes. *)
Fixpoint digits_value (s : string) (acc : Z) : option Z :=
  match s with
  | EmptyString => Some acc
  | String c s' =>
      let n := Z.of_nat (nat_of_ascii c) - 48 in
      if (0 <=? n) && (n <=? 9) then digits_value s' (10 * acc + n) else None
  end.


Definition denotes (width : nat) (s : string) (n : Z) : bool :=
  Nat.eqb (String.length s) width
  && match digits_value s 0 with
     | Some v => Z.eqb v n
     | None => false
     end.

(** ** The list of users *)

(** The user that the loop of [get_all_users] leaves under a name: the
    last one in the table to carry it. *)
Definition last_user_named (n : string) (l : list User.t) : option User.t :=
  find (fun u => String.eqb (User.name u) n) (rev l).

(** A user has an entry in the answer when the mapping holds the user's
    id, name and email under the user's name. *)
Definition has_entry_for (d : list (string * UserJson)) (u : User.t) : Prop :=
  dict_get (User.name u) d = Some (user_json u).

(** The claim as the specification words it: an entry for every user. *)
Definition all_users_lists_every_user
    (generate_password_hash : string -> string -> string)
    (check_password_hash : string -> string -> bool)
    (w : World) : Prop :=
  exists d : list (string * UserJson),
    handle generate_password_hash check_password_hash req_all_users w
    = (jsonify d, w)
    /\ forall u, In u (users (db w)) -> has_entry_for d u.

(** ** Transitions and well-formed worlds *)

(** What one request can do to the database.  Each constructor is one
    write of a handler, with the facts that the handler has checked before
    it. *)
Inductive db_step (d : Db) : Db -> Prop :=
| db_step_none : db_step d d
| db_step_register (u : User.t) :
    User.id u = users_id_seq d ->
    existsb (fun x => String.eqb (User.email x) (User.email u)) (users d)
    = false ->
    db_step d (mkDb (users d ++ [u])%list (blog_posts d) (comments d)
                    (users_id_seq d + 1) (blog_posts_id_seq d)
                    (comments_id_seq d))
| db_step_new_post (u : User.t) (p : BlogPost.t) :
    In u (users d) ->
    BlogPost.author_id p = User.id u ->
    BlogPost.id p = blog_posts_id_seq d ->
    existsb (fun x => String.eqb (BlogPost.title x) (BlogPost.title p))
            (blog_posts d) = false ->
    db_step d (mkDb (users d) (blog_posts d ++ [p])%list (comments d)
                    (users_id_seq d) (blog_posts_id_seq d + 1)
                    (comments_id_seq d))
| db_step_refused_post :
    db_step d (mkDb (users d) (blog_posts d) (comments d)
                    (users_id_seq d) (blog_posts_id_seq d + 1)
                    (comments_id_seq d))
| db_step_edit_post (u : User.t) (p e : BlogPost.t) :
    In u (users d) ->
    In p (blog_posts d) ->
    BlogPost.author_id e = User.id u ->
    BlogPost.id e = BlogPost.id p ->
    BlogPost.date e = BlogPost.date p ->
    existsb (fun x => negb (Z.eqb (BlogPost.id x) (BlogPost.id p))
                      && String.eqb (BlogPost.title x) (BlogPost.title e))
            (blog_posts d) = false ->
    db_step d (mkDb (users d)
                    (filter (fun x => negb (Z.eqb (BlogPost.id x)
                                                  (BlogPost.id p)))
                            (blog_posts d)
                     ++ [e])%list
                    (comments d) (users_id_seq d) (blog_posts_id_seq d)
                    (comments_id_seq d))
| db_step_delete_post (p : BlogPost.t) :
    BlogPost_comments d p = [] ->
    db_step d (mkDb (users d)
                    (filter (fun x => negb (Z.eqb (BlogPost.id x)
                                                  (BlogPost.id p)))
                            (blog_posts d))
                    (comments d) (users_id_seq d) (blog_posts_id_seq d)
                    (comments_id_seq d))
| db_step_comment (u : User.t) (p : BlogPost.t) (c : Comment.t) :
    In u (users d) ->
    In p (blog_posts d) ->
    Comment.id c = comments_id_seq d ->
    Comment.author_id c = User.id u ->
    Comment.post_id c = BlogPost.id p ->
    db_step d (mkDb (users d) (blog_posts d) (comments d ++ [c])%list
                    (users_id_seq d) (blog_posts_id_seq d)
                    (comments_id_seq d + 1)).

(** What one request can do to the user of the session: keep it, drop it,
    or set it to a user of the store as the request leaves it. *)
Definition session_step (d' : Db) (s s' : Session) : Prop :=
  _user_id s' = _user_id s
  \/ _user_id s' = None
  \/ exists u, In u (users d') /\ _user_id s' = Some (User.id u).

(** What one request can do to the world. *)
Definition step (w w' : World) : Prop :=
  db_step (db w) (db w') /\ session_step (db w') (session w) (session w').

(** The invariants of the store and of the session: ids lie below their
    sequence and are unique, emails and titles are unique, every post and
    every comment refers to an existing user, every comment to an existing
    post, and the session, if any, is the session of an existing user. *)
Record wf (w : World) : Prop := mk_wf
  { wf_user_ids :
      Forall (fun u => User.id u < users_id_seq (db w)) (users (db w));
    wf_user_ids_unique : NoDup (map User.id (users (db w)));
    wf_emails_unique : NoDup (map User.email (users (db w)));
    wf_post_ids :
      Forall (fun p => BlogPost.id p < blog_posts_id_seq (db w))
             (blog_posts (db w));
    wf_post_ids_unique : NoDup (map BlogPost.id (blog_posts (db w)));
    wf_titles_unique : NoDup (map BlogPost.title (blog_posts (db w)));
    wf_post_author :
      Forall (fun p => In (BlogPost.author_id p) (map User.id (users (db w))))
             (blog_posts (db w));
    wf_comment_ids :
      Forall (fun c => Comment.id c < comments_id_seq (db w))
             (comments (db w));
    wf_comment_ids_unique : NoDup (map Comment.id (comments (db w)));
    wf_comment_refs :
      Forall (fun c => In (Comment.author_id c) (map User.id (users (db w)))
                       /\ In (Comment.post_id c)
                             (map BlogPost.id (blog_posts (db w))))
             (comments (db w));
    wf_session :
      forall i, _user_id (session w) = Some i ->
                In i (map User.id (users (db w))) }.

(** ** Kinds of requests *)

(** The routes behind [admin_only]. *)
Definition is_admin_route (r : Request) : bool :=
  match r with
  | req_new_post _ _ | req_edit_post _ _ | req_delete _ => true
  | _ => false
  end.

(** The requests that only show something: the routes without form, and
    the routes with a form when no valid form is submitted. *)
Definition is_view_only (r : Request) : bool :=
  match r with
  | req_all_users | req_index | req_about | req_contact => true
  | req_register None _ | req_login None | req_post _ None
  | req_new_post None _ | req_edit_post _ None => true
  | _ => false
  end.

(** A submitted registration. *)
Definition is_registration (r : Request) : bool :=
  match r with
  | req_register (Some _) _ => true
  | _ => false
  end.

(** The post that a request addresses by id. *)
Definition requested_post (r : Request) : option Z :=
  match r with
  | req_post post_id _ | req_edit_post post_id _ | req_delete post_id =>
      Some post_id
  | _ => None
  end.

(** ** More example worlds and messages *)

(** Alice and Bob are registered, Alice has written a post, nobody is
    logged in. *)
Definition everyone_logged_out : World :=
  serve toy_hash toy_check
    [ req_register (Some (RegisterForm.make "a@x.com" "pa" "Alice")) "s1";
      req_new_post (Some (CreatePostForm.make "P1" "sub" "img" "body"))
                   (date.make 2024 6 5);
      req_logout;
      req_register (Some (RegisterForm.make "b@x.com" "pb" "Bob")) "s2";
      req_logout ]
    initial_world.

(** A browser that still holds the cookie of user 7 of a database that has
    been emptied since. *)
Definition stale_cookie : World := mkWorld empty_db (mkSession (Some 7) []).


Definition already_logged_in_message : string :=
  "You are already logged in!".

(** ** Dates and ids *)

(** A date whose stamp has the long format. *)
Definition stamp_date (d : date.t) : Prop :=
  1 <= date.month d <= 12 /\ 1 <= date.day d <= 31
  /\ 1000 <= date.year d <= 9999.


(** * Properties *)

Example strftime_example :
  strftime_B_d_Y (date.make 2024 3 3) = "March 03, 2024".
Proof. reflexivity. Qed.

(** ** The session authenticator *)

Ltac unfold_monad :=
  cbv [bind ret raise abort get_db put_db get_session put_session
       get_or_404 load_user] in *.

Lemma current_user_cases (w : World) :
  (exists cu, current_user w = (inr cu, w))
  \/ current_user w = (inl (HTTPException 404), w).
Proof.
  unfold current_user. unfold_monad.
  destruct (_user_id (session w)) as [ident|].
  - destruct (get_User ident (db w)) as [u|].
    + left. exists (Authenticated u). reflexivity.
    + right. reflexivity.
  - left. exists AnonymousUserMixin. reflexivity.
Qed.

Lemma current_user_anonymous (w : World) :
  _user_id (session w) = None ->
  current_user w = (inr AnonymousUserMixin, w).
Proof.
  intros H. unfold current_user. unfold_monad. rewrite H. reflexivity.
Qed.

Lemma current_user_loaded (w : World) (ident : Z) (u : User.t) :
  _user_id (session w) = Some ident ->
  get_User ident (db w) = Some u ->
  current_user w = (inr (Authenticated u), w).
Proof.
  intros Hs Hu. unfold current_user. unfold_monad.
  rewrite Hs, Hu. reflexivity.
Qed.

Lemma current_user_authenticated_inv (w : World) (u : User.t) :
  current_user w = (inr (Authenticated u), w) ->
  _user_id (session w) = Some (User.id u)
  /\ get_User (User.id u) (db w) = Some u.
Proof.
  unfold current_user. unfold_monad.
  destruct (_user_id (session w)) as [ident|]; [|discriminate].
  destruct (get_User ident (db w)) as [u'|] eqn:Hget; [|discriminate].
  intros H. injection H as ->.
  assert (User.id u = ident) as <-.
  { unfold get_User in Hget. apply find_some in Hget.
    destruct Hget as [_ Hid]. apply Z.eqb_eq in Hid. exact Hid. }
  split; [reflexivity | exact Hget].
Qed.

Lemma current_user_anonymous_inv (w : World) :
  current_user w = (inr AnonymousUserMixin, w) ->
  _user_id (session w) = None.
Proof.
  unfold current_user. unfold_monad.
  destruct (_user_id (session w)) as [ident|]; [|reflexivity].
  destruct (get_User ident (db w)); discriminate.
Qed.

(** The identity seen by a handler depends on the users table and on the
    session's user id only. *)
Lemma current_user_ext (w w' : World) (cu : Identity) :
  users (db w') = users (db w) ->
  _user_id (session w') = _user_id (session w) ->
  current_user w = (inr cu, w) ->
  current_user w' = (inr cu, w').
Proof.
  unfold current_user. unfold_monad.
  intros Husers ->.
  destruct (_user_id (session w)) as [ident|].
  - unfold get_User. rewrite Husers.
    destruct (find _ (users (db w))); intros H; inversion H; reflexivity.
  - intros H; inversion H; reflexivity.
Qed.

(** ** The decorators *)

Lemma get_current_user_resolved {A : Type} (f : M A) (w : World)
    (cu : Identity) :
  current_user w = (inr cu, w) -> get_current_user f w = f w.
Proof.
  intros H. unfold get_current_user, bind. rewrite H. reflexivity.
Qed.

Lemma get_current_user_stale {A : Type} (f : M A) (w : World) (e : Exception) :
  current_user w = (inl e, w) -> get_current_user f w = (inl e, w).
Proof.
  intros H. unfold get_current_user, bind. rewrite H. reflexivity.
Qed.

Lemma login_required_anonymous {A : Type} (f : M A) (w : World) :
  current_user w = (inr AnonymousUserMixin, w) ->
  login_required f w = (inl (HTTPException 401), w).
Proof.
  intros H. unfold login_required, bind. rewrite H. reflexivity.
Qed.

(** The gate lets every authenticated caller through, whatever the id: the
    left operand of its [and] is false as soon as the caller is logged in. *)
Lemma admin_only_authenticated {A : Type} (f : M A) (w : World) (u : User.t) :
  current_user w = (inr (Authenticated u), w) -> admin_only f w = f w.
Proof.
  intros H. unfold admin_only, login_required, bind.
  rewrite H. simpl. rewrite H. reflexivity.
Qed.

Lemma admin_only_anonymous {A : Type} (f : M A) (w : World) :
  current_user w = (inr AnonymousUserMixin, w) ->
  admin_only f w = (inl (HTTPException 401), w).
Proof. apply login_required_anonymous. Qed.

Lemma admin_only_stale {A : Type} (f : M A) (w : World) (e : Exception) :
  current_user w = (inl e, w) -> admin_only f w = (inl e, w).
Proof.
  intros H. unfold admin_only, login_required, bind. rewrite H. reflexivity.
Qed.

(** The gate itself never answers 403: what comes out of a gated handler is
    401 for an anonymous caller, 404 for a stale session, and otherwise
    what the handler answers. *)
Lemma admin_only_outcome {A : Type} (f : M A) (w : World) :
  admin_only f w = (inl (HTTPException 401), w)
  \/ admin_only f w = (inl (HTTPException 404), w)
  \/ admin_only f w = f w.
Proof.
  destruct (current_user_cases w) as [[[|u] H] | H].
  - left. apply admin_only_anonymous, H.
  - right; right. apply admin_only_authenticated with u, H.
  - right; left. apply admin_only_stale, H.
Qed.

Example bob_logged_in_world :
  bob_logged_in =
  mkWorld (mkDb [alice; bob]
                [BlogPost.make 1 1 "P1" "sub" "June 05, 2024" "body" "img"]
                [] 3 2 1)
          (mkSession (Some 2) []).
Proof. reflexivity. Qed.

(** ** The authorization gate *)

(** C1 (evaluation at the failing input).  Bob is authenticated and is not
    the bootstrap admin (his id is 2), yet new-post, edit-post and delete
    all go through for him: the post is created, edited, deleted, and the
    answer is a redirect, not 403 Forbidden. *)
Theorem admin_only_admits_non_admin
    (generate_password_hash : string -> string -> string)
    (check_password_hash : string -> string -> bool) :
  let handle := handle generate_password_hash check_password_hash in
  current_user bob_logged_in = (inr (Authenticated bob), bob_logged_in)
  /\ User.id bob <> 1
  /\ handle (req_new_post (Some (CreatePostForm.make "P2" "s" "i" "b"))
                          (date.make 2024 6 6)) bob_logged_in
     = (redirect "get_all_posts" None,
        mkWorld (mkDb [alice; bob]
                   [BlogPost.make 1 1 "P1" "sub" "June 05, 2024" "body" "img";
                    BlogPost.make 2 2 "P2" "s" "June 06, 2024" "b" "i"]
                   [] 3 3 1)
                (mkSession (Some 2) []))
  /\ handle (req_edit_post 1 (Some (CreatePostForm.make "Mine" "s" "i" "b")))
            bob_logged_in
     = (redirect "show_post" (Some 1),
        mkWorld (mkDb [alice; bob]
                   [BlogPost.make 1 2 "Mine" "s" "June 05, 2024" "b" "i"]
                   [] 3 2 1)
                (mkSession (Some 2) []))
  /\ handle (req_delete 1) bob_logged_in
     = (redirect "get_all_posts" None,
        mkWorld (mkDb [alice; bob] [] [] 3 2 1) (mkSession (Some 2) [])).
Proof.
  cbv zeta. repeat split; try reflexivity.
  unfold bob; simpl; lia.
Qed.

(** ** Logging out *)

(** C4 (evaluation at the failing input).  For a caller who is not
    authenticated the [logout] view changes nothing and returns no
    response at all, which Flask answers with status 500: the request
    ends in an error, not in a normal response. *)
Theorem logout_anonymous_is_server_error
    (generate_password_hash : string -> string -> string)
    (check_password_hash : string -> string -> bool)
    (d : Db) (flashes : list string) :
  let w := mkWorld d (mkSession None flashes) in
  logout w = (inr None, w)
  /\ handle generate_password_hash check_password_hash req_logout w
     = (error_response 500, w).
Proof. split; reflexivity. Qed.

(** ** Comments *)

Lemma create_Comment_anonymous (text : string) (p : BlogPost.t) (w : World) :
  create_Comment text AnonymousUserMixin p w = (inl AttributeError, w).
Proof. reflexivity. Qed.

Lemma get_BlogPost_id (ident : Z) (d : Db) (p : BlogPost.t) :
  get_BlogPost ident d = Some p -> BlogPost.id p = ident.
Proof.
  unfold get_BlogPost. intros H. apply find_some in H.
  destruct H as [_ H]. apply Z.eqb_eq in H. exact H.
Qed.

(** C10.  The comment path of [show_post] has no authentication check: for
    an unauthenticated caller, an existing post and a valid comment form,
    the handler is the comment-creation step run with the anonymous
    identity as comment author, followed by the rendering; the request is
    neither turned away as unauthorized (401) nor as forbidden (403), it
    ends in the exception that the creation step raises for that author. *)
Theorem show_post_comment_unauthenticated
    (w : World) (post_id : Z) (p : BlogPost.t) (f : CommentForm.t) :
  _user_id (session w) = None ->
  get_BlogPost post_id (db w) = Some p ->
  show_post post_id (Some f) w
  = (_ <- create_Comment (CommentForm.body f) AnonymousUserMixin p ;;
     ret (Some (render_template "post.html"
                  [arg_post p; arg_logged_in false; arg_form "CommentForm"])))
      w
  /\ show_post post_id (Some f) w = (inl AttributeError, w)
  /\ (forall code, show_post post_id (Some f) w <> (inl (HTTPException code), w)).
Proof.
  intros Hanon Hpost.
  assert (Hcu := current_user_anonymous w Hanon).
  assert (Hrun : show_post post_id (Some f) w = (inl AttributeError, w)).
  { unfold show_post. rewrite (get_current_user_resolved _ _ _ Hcu).
    unfold_monad. rewrite Hpost. rewrite Hcu. reflexivity. }
  repeat split.
  - rewrite Hrun. reflexivity.
  - exact Hrun.
  - intros code. rewrite Hrun. discriminate.
Qed.

Lemma show_post_comment_unauthenticated_witness :
  let w := mkWorld (mkDb [alice] [BlogPost.make 1 1 "P1" "sub" "June 05, 2024" "body" "img"] [] 2 2 1)
                   (mkSession None []) in
  show_post 1 (Some (CommentForm.make "hi")) w = (inl AttributeError, w).
Proof.
  cbv zeta.
  apply (show_post_comment_unauthenticated _ 1
           (BlogPost.make 1 1 "P1" "sub" "June 05, 2024" "body" "img")
           (CommentForm.make "hi")); reflexivity.
Defined.



(** ** Lists: [find] against [existsb], [filter] and [app] *)

Section ListFacts.

Context {A : Type}.
Variable f : A -> bool.

Lemma find_none_existsb (l : list A) :
  find f l = None -> existsb f l = false.
Proof.
  induction l as [|x l IH]; simpl; [reflexivity|].
  destruct (f x); [discriminate | exact IH].
Qed.


Lemma find_app_some (l l' : list A) (x : A) :
  find f l = Some x -> find f (l ++ l') = Some x.
Proof.
  induction l as [|y l IH]; simpl; [discriminate|].
  destruct (f y); [intros H; exact H | exact IH].
Qed.

Lemma find_app_none (l l' : list A) :
  find f l = None -> find f (l ++ l') = find f l'.
Proof.
  induction l as [|y l IH]; simpl; [reflexivity|].
  destruct (f y); [discriminate | exact IH].
Qed.

Lemma find_all_false (l : list A) :
  Forall (fun x => f x = false) l -> find f l = None.
Proof.
  induction 1 as [|x l Hx _ IH]; simpl; [reflexivity|].
  rewrite Hx. exact IH.
Qed.

End ListFacts.

(** With unique emails, the lookup by email finds the very row. *)
Lemma select_User_by_email_unique (d : Db) (u : User.t) :
  NoDup (map User.email (users d)) ->
  In u (users d) ->
  select_User_by_email (User.email u) d = Some u.
Proof.
  unfold select_User_by_email.
  induction (users d) as [|x l IH]; intros Hnd Hin; [destruct Hin|].
  simpl in *. inversion Hnd as [|? ? Hx Hl]; subst.
  destruct Hin as [-> | Hin].
  - rewrite String.eqb_refl. reflexivity.
  - destruct (String.eqb_spec (User.email x) (User.email u)) as [He|_].
    + exfalso. apply Hx. rewrite He. apply in_map. exact Hin.
    + apply IH; assumption.
Qed.

(** ** Registration *)


Section Registration.

Variable generate_password_hash : string -> string -> string.
Variable check_password_hash : string -> string -> bool.





End Registration.



(** ** Logging in *)

(** C3.  For a registered user and a submitted password that the hash
    check rejects for that user's stored hash, [login] answers with the
    flash message and the redirect back to the login page, and the session
    keeps the user id it had: no session is established, and a caller who
    was anonymous is anonymous afterwards. *)
Theorem login_wrong_password
    (generate_password_hash : string -> string -> string)
    (check_password_hash : string -> string -> bool)
    (w : World) (u : User.t) (f : LoginForm.t) (cu : Identity) :
  current_user w = (inr cu, w) ->
  NoDup (map User.email (users (db w))) ->
  In u (users (db w)) ->
  LoginForm.email f = User.email u ->
  check_password_hash (User.password u) (LoginForm.password f) = false ->
  exists w' : World,
    handle generate_password_hash check_password_hash (req_login (Some f)) w
    = (redirect "login" None, w')
    /\ _flashes (session w')
       = (_flashes (session w) ++ [wrong_password_message])%list
    /\ db w' = db w
    /\ _user_id (session w') = _user_id (session w)
    /\ current_user w' = (inr cu, w')
    /\ (cu = AnonymousUserMixin ->
        current_user w' = (inr AnonymousUserMixin, w')).
Proof.
  intros Hcu Hnd Hin Hemail Hcheck.
  exists (mkWorld (db w)
            (mkSession (_user_id (session w))
               (_flashes (session w) ++ [wrong_password_message])%list)).
  assert (Hcu' : current_user
                   (mkWorld (db w)
                      (mkSession (_user_id (session w))
                         (_flashes (session w) ++ [wrong_password_message])%list))
                 = (inr cu,
                    mkWorld (db w)
                      (mkSession (_user_id (session w))
                         (_flashes (session w) ++ [wrong_password_message])%list))).
  { apply current_user_ext with w; [reflexivity | reflexivity | exact Hcu]. }
  repeat split.
  - unfold handle, view_function, full_dispatch_request, login.
    rewrite (get_current_user_resolved _ _ _ Hcu).
    unfold flash. unfold_monad.
    rewrite Hemail, (select_User_by_email_unique _ _ Hnd Hin), Hcheck.
    reflexivity.
  - exact Hcu'.
  - intros <-. exact Hcu'.
Qed.

Lemma login_wrong_password_witness :
  exists w' : World,
    handle toy_hash toy_check
           (req_login (Some (LoginForm.make "a@x.com" "guess")))
           (mkWorld (db bob_logged_in) no_session)
    = (redirect "login" None, w')
    /\ _flashes (session w') = [wrong_password_message]
    /\ db w' = db bob_logged_in
    /\ _user_id (session w') = None
    /\ current_user w' = (inr AnonymousUserMixin, w')
    /\ (AnonymousUserMixin = AnonymousUserMixin ->
        current_user w' = (inr AnonymousUserMixin, w')).
Proof.
  apply (login_wrong_password toy_hash toy_check
           (mkWorld (db bob_logged_in) no_session) alice
           (LoginForm.make "a@x.com" "guess") AnonymousUserMixin).
  - reflexivity.
  - simpl. repeat constructor; simpl; intuition discriminate.
  - simpl. left. reflexivity.
  - reflexivity.
  - reflexivity.
Defined.

(** ** Editing a post *)






Section Editing.

Variable generate_password_hash : string -> string -> string.
Variable check_password_hash : string -> string -> bool.



End Editing.



(** ** Listing the users *)

Lemma dict_get_set_same {V : Type} (k : string) (v : V)
    (d : list (string * V)) :
  dict_get k (dict_set k v d) = Some v.
Proof.
  induction d as [|[k' v'] d IH]; simpl.
  - rewrite String.eqb_refl. reflexivity.
  - destruct (String.eqb k' k) eqn:Hk; simpl.
    + rewrite String.eqb_refl. reflexivity.
    + rewrite Hk. exact IH.
Qed.

Lemma dict_get_set_other {V : Type} (k k' : string) (v : V)
    (d : list (string * V)) :
  String.eqb k k' = false ->
  dict_get k' (dict_set k v d) = dict_get k' d.
Proof.
  intros Hk. induction d as [|[k0 v0] d IH]; simpl.
  - rewrite Hk. reflexivity.
  - destruct (String.eqb k0 k) eqn:H0; simpl.
    + rewrite Hk. apply String.eqb_eq in H0. subst k0. rewrite Hk.
      reflexivity.
    + destruct (String.eqb k0 k'); [reflexivity | exact IH].
Qed.

Lemma dict_get_user_dict (n : string) (l : list User.t)
    (d0 : list (string * UserJson)) :
  dict_get n
    (fold_left (fun acc user => dict_set (User.name user) (user_json user) acc)
               l d0)
  = match last_user_named n l with
    | Some u => Some (user_json u)
    | None => dict_get n d0
    end.
Proof.
  unfold last_user_named. revert d0.
  induction l as [|u l IH]; intros d0; simpl; [reflexivity|].
  rewrite IH.
  destruct (find (fun u0 => String.eqb (User.name u0) n) (rev l))
    as [u'|] eqn:Hfind.
  - rewrite (find_app_some _ _ _ _ Hfind). reflexivity.
  - rewrite (find_app_none _ _ _ Hfind). simpl.
    destruct (String.eqb (User.name u) n) eqn:Hn.
    + apply String.eqb_eq in Hn. subst n. apply dict_get_set_same.
    + apply dict_get_set_other. exact Hn.
Qed.

Lemma last_user_named_some (u : User.t) (l : list User.t) :
  In u l ->
  exists u', last_user_named (User.name u) l = Some u'.
Proof.
  intros Hin. unfold last_user_named.
  destruct (find (fun u0 => String.eqb (User.name u0) (User.name u)) (rev l))
    as [u'|] eqn:Hfind.
  - exists u'. reflexivity.
  - exfalso. apply in_rev in Hin.
    apply (find_none _ _ Hfind u) in Hin.
    rewrite String.eqb_refl in Hin. discriminate.
Qed.

Lemma last_user_named_in (n : string) (u : User.t) (l : list User.t) :
  last_user_named n l = Some u -> In u l /\ User.name u = n.
Proof.
  unfold last_user_named. intros H. apply find_some in H.
  destruct H as [Hin Hn]. split.
  - apply in_rev. exact Hin.
  - apply String.eqb_eq. exact Hn.
Qed.

Section AllUsers.

Variable generate_password_hash : string -> string -> string.
Variable check_password_hash : string -> string -> bool.

(** C8 (amended).  In every state, and whoever the caller is (no
    identity is looked at), [/all-users] leaves the state alone and
    answers with a JSON mapping keyed by user name in which every name in
    the store has an entry; the entry under a name holds the id, name and
    email of the last user stored with that name; every entry stems from
    a stored user; and a user whose name no other user carries has an
    entry of their own. *)
Theorem get_all_users_lists_names (w : World) :
  exists d : list (string * UserJson),
    handle generate_password_hash check_password_hash req_all_users w
    = (jsonify d, w)
    /\ (forall u, In u (users (db w)) ->
          exists u', last_user_named (User.name u) (users (db w)) = Some u'
                     /\ dict_get (User.name u) d = Some (user_json u'))
    /\ (forall n j, dict_get n d = Some j ->
          exists u, In u (users (db w)) /\ User.name u = n
                    /\ j = user_json u)
    /\ (forall u, In u (users (db w)) ->
          (forall u', In u' (users (db w)) ->
                      User.name u' = User.name u -> u' = u) ->
          has_entry_for d u).
Proof.
  eexists. split; [reflexivity|]. split; [|split].
  - intros u Hin.
    destruct (last_user_named_some u _ Hin) as [u' Hu'].
    exists u'. split; [exact Hu'|].
    rewrite dict_get_user_dict, Hu'. reflexivity.
  - intros n j. rewrite dict_get_user_dict.
    destruct (last_user_named n (users (db w))) as [u|] eqn:Hlast;
      [|discriminate].
    intros H. injection H as <-.
    apply last_user_named_in in Hlast. destruct Hlast as [Hin Hn].
    exists u. repeat split; assumption.
  - intros u Hin Honly. unfold has_entry_for.
    destruct (last_user_named_some u _ Hin) as [u' Hu'].
    rewrite dict_get_user_dict, Hu'.
    apply last_user_named_in in Hu'. destruct Hu' as [Hin' Hn'].
    rewrite (Honly u' Hin' Hn'). reflexivity.
Qed.

End AllUsers.

(** C8 (counterexample).  With two users of the same name in the store, the
    mapping has one entry, the second user's: the first user has none. *)
Lemma all_users_same_name_counterexample :
  ~ all_users_lists_every_user toy_hash toy_check two_bobs.
Proof.
  intros [d [Hresp Hall]].
  vm_compute in Hresp. injection Hresp as <-.
  specialize (Hall (User.make 1 "bob@x.com" "s1$p1" "Bob")).
  unfold has_entry_for in Hall. vm_compute in Hall.
  assert (H : Some (mkUserJson 2 "Bob" "bob@y.com")
              = Some (mkUserJson 1 "Bob" "bob@x.com")).
  { apply Hall. left. reflexivity. }
  discriminate H.
Qed.

(** ** Case analysis of a whole request *)

Ltac unfold_handlers :=
  cbv [handle view_function full_dispatch_request
       get_all_users register login logout get_all_posts show_post
       add_new_post edit_post delete_post about contact
       admin_only login_required get_current_user current_user
       create_Comment add_Comment add_User add_BlogPost update_BlogPost
       delete_BlogPost mapped_User Identity_id login_user logout_user flash
       is_authenticated negb
       bind ret raise abort get_db put_db get_session put_session
       get_or_404 load_user render].

(** Split on the innermost test that a handler makes next. *)
Ltac break_match :=
  match goal with
  | |- context [match ?x with _ => _ end] =>
      lazymatch x with
      | context [match _ with _ => _ end] => fail
      | _ => destruct x eqn:?
      end
  | |- context [if existsb ?f ?l then _ else _] =>
      destruct (existsb f l) eqn:?
  | |- context [match filter ?f ?l with _ => _ end] =>
      destruct (filter f l) eqn:?
  end.

Ltac run_handler :=
  unfold_handlers;
  repeat (break_match;
          cbn beta iota zeta delta
            [fst snd db blog_posts users comments session _user_id _flashes
             users_id_seq blog_posts_id_seq comments_id_seq]).

(** ** The date of a post *)





(** *** The format of the stamp *)

Lemma denotes_spec (width : nat) (s : string) (n : Z) :
  denotes width s n = true ->
  String.length s = width /\ digits_value s 0 = Some n.
Proof.
  unfold denotes. intros H. apply andb_true_iff in H. destruct H as [Hl Hv].
  split; [apply Nat.eqb_eq; exact Hl|].
  destruct (digits_value s 0) as [v|]; [|discriminate].
  apply Z.eqb_eq in Hv. subst v. reflexivity.
Qed.

(** A check that holds on each number of a range holds on every number
    between its bounds. *)
Lemma forallb_range (P : Z -> bool) (lo hi : Z) :
  forallb P (map (fun i => lo + Z.of_nat i) (seq 0 (Z.to_nat (hi - lo + 1))))
  = true ->
  forall z, lo <= z <= hi -> P z = true.
Proof.
  intros H z Hz. rewrite forallb_forall in H. apply H.
  apply in_map_iff. exists (Z.to_nat (z - lo)). split; [lia|].
  apply in_seq. lia.
Qed.

Lemma strftime_d_two_digits (day : Z) :
  1 <= day <= 31 ->
  String.length (strftime_d day) = 2%nat
  /\ digits_value (strftime_d day) 0 = Some day.
Proof.
  intros H. apply denotes_spec.
  apply (forallb_range (fun z => denotes 2 (strftime_d z) z) 1 31);
    [vm_compute; reflexivity | exact H].
Qed.

Lemma strftime_Y_four_digits (year : Z) :
  1000 <= year <= 9999 ->
  String.length (strftime_Y year) = 4%nat
  /\ digits_value (strftime_Y year) 0 = Some year.
Proof.
  intros H. apply denotes_spec.
  apply (forallb_range (fun z => denotes 4 (strftime_Y z) z) 1000 9999);
    [vm_compute; reflexivity | exact H].
Qed.



(** *** The stamp fits its column *)





(** *** Creation stamps the date, edits keep it *)

Section PostDate.

Variable generate_password_hash : string -> string -> string.
Variable check_password_hash : string -> string -> bool.




End PostDate.


(** ** The transitions of the application *)

Lemma get_User_in (ident : Z) (d : Db) (u : User.t) :
  get_User ident d = Some u -> In u (users d).
Proof. unfold get_User. intros H. apply find_some in H. apply H. Qed.

Lemma get_BlogPost_in (ident : Z) (d : Db) (p : BlogPost.t) :
  get_BlogPost ident d = Some p -> In p (blog_posts d).
Proof. unfold get_BlogPost. intros H. apply find_some in H. apply H. Qed.

Lemma select_User_by_email_in (e : string) (d : Db) (u : User.t) :
  select_User_by_email e d = Some u -> In u (users d).
Proof.
  unfold select_User_by_email. intros H. apply find_some in H. apply H.
Qed.

Create HintDb blog.

#[local] Hint Resolve get_User_in get_BlogPost_in select_User_by_email_in
  : blog.

(** Every request is one transition. *)
Lemma handle_step
    (generate_password_hash : string -> string -> string)
    (check_password_hash : string -> string -> bool)
    (req : Request) (w : World) :
  step w (snd (handle generate_password_hash check_password_hash req w)).
Proof.
  unfold step.
  destruct req; run_handler.
  all: try (exfalso;
            match goal with
            | H1 : select_User_by_email _ _ = None,
              H2 : existsb _ _ = true |- _ =>
                unfold select_User_by_email in H1;
                rewrite (find_none_existsb _ _ H1) in H2; discriminate H2
            end).
  all: split.
  all: cbn [db session _user_id users].
  all: try apply db_step_none.
  all: try apply db_step_refused_post.
  all: try (left; reflexivity).
  all: try (left; assumption).
  all: try (right; left; reflexivity).
  all: try (right; right; eexists; split;
            [eauto with blog | reflexivity]; fail).
  all: try match goal with
       | |- db_step _ (mkDb (_ ++ [?u])%list _ _ _ _ _) =>
           apply (db_step_register (db w) u); [reflexivity | assumption]
       | |- db_step _ (mkDb _ (_ ++ [BlogPost.make ?i (User.id ?u) ?t ?s ?d ?b ?g])%list _ _ _ _) =>
           apply (db_step_new_post (db w) u
                    (BlogPost.make i (User.id u) t s d b g));
           [eauto with blog | reflexivity | reflexivity | assumption]
       | |- db_step _ (mkDb _ _ (_ ++ [Comment.make ?i ?t (User.id ?u) (BlogPost.id ?p)])%list _ _ _) =>
           apply (db_step_comment (db w) u p
                    (Comment.make i t (User.id u) (BlogPost.id p)));
           [eauto with blog | eauto with blog | reflexivity | reflexivity
           | reflexivity]
       | |- db_step _ (mkDb _ (filter _ _ ++ [BlogPost.make (BlogPost.id ?p) (User.id ?u) ?t ?s ?d ?b ?g])%list _ _ _ _) =>
           apply (db_step_edit_post (db w) u p
                    (BlogPost.make (BlogPost.id p) (User.id u) t s d b g));
           [eauto with blog | eauto with blog | reflexivity | reflexivity
           | reflexivity | assumption]
       | H : BlogPost_comments _ ?p = [] |- _ =>
           apply (db_step_delete_post (db w) p H)
       | |- session_step (mkDb (_ ++ [?u])%list _ _ _ _ _) _ _ =>
           right; right; exists u;
           split; [apply in_or_app; right; left; reflexivity | reflexivity]
       end.
Qed.
(** ** Well-formed worlds *)

Section Keys.

Context {A : Type}.

Lemma NoDup_map_snoc {B : Type} (key : A -> B) (l : list A) (x : A) :
  NoDup (map key l) -> ~ In (key x) (map key l) ->
  NoDup (map key (l ++ [x])).
Proof.
  intros Hnd Hx. rewrite map_app. apply NoDup_app.
  - exact Hnd.
  - simpl. constructor; [intros [] | constructor].
  - intros a Ha [<- | []]. exact (Hx Ha).
Qed.

Lemma below_not_in (key : A -> Z) (n : Z) (l : list A) :
  Forall (fun x => key x < n) l -> ~ In n (map key l).
Proof.
  intros Hall Hin. apply in_map_iff in Hin. destruct Hin as [x [Hx Hin]].
  rewrite Forall_forall in Hall. specialize (Hall x Hin). lia.
Qed.

Lemma existsb_key_not_in (key : A -> string) (k : string) (l : list A) :
  existsb (fun x => String.eqb (key x) k) l = false ->
  ~ In k (map key l).
Proof.
  intros Hex Hin. apply in_map_iff in Hin. destruct Hin as [x [Hx Hin]].
  assert (existsb (fun x => String.eqb (key x) k) l = true).
  { apply existsb_exists. exists x. split; [exact Hin|].
    apply String.eqb_eq. exact Hx. }
  congruence.
Qed.

Lemma Forall_snoc (P : A -> Prop) (l : list A) (x : A) :
  Forall P l -> P x -> Forall P (l ++ [x]).
Proof.
  intros Hl Hx. apply Forall_app. split; [exact Hl|].
  constructor; [exact Hx | constructor].
Qed.

Lemma Forall_filter (P : A -> Prop) (g : A -> bool) (l : list A) :
  Forall P l -> Forall P (filter g l).
Proof.
  intros H. apply Forall_forall. intros x Hx. apply filter_In in Hx.
  rewrite Forall_forall in H. apply H. apply Hx.
Qed.

Lemma NoDup_map_filter {B : Type} (key : A -> B) (g : A -> bool)
    (l : list A) :
  NoDup (map key l) -> NoDup (map key (filter g l)).
Proof.
  induction l as [|x l IH]; simpl; [intros H; exact H|].
  intros H. inversion H as [|? ? Hx Hl]; subst.
  destruct (g x); simpl; [|apply IH; exact Hl].
  constructor; [|apply IH; exact Hl].
  intros Hin. apply Hx. apply in_map_iff in Hin.
  destruct Hin as [y [Hy Hin]]. apply filter_In in Hin.
  apply in_map_iff. exists y. split; [exact Hy | apply Hin].
Qed.

End Keys.

(** The rows of a table after the row of one id has been written anew. *)
Section Rewrite.

Variables p e : BlogPost.t.
Hypothesis same_id : BlogPost.id e = BlogPost.id p.

Lemma rewrite_in (l : list BlogPost.t) (y : BlogPost.t) :
  In y (filter (fun x => negb (Z.eqb (BlogPost.id x) (BlogPost.id p))) l
        ++ [e]) ->
  y = e \/ (In y l /\ BlogPost.id y <> BlogPost.id p).
Proof.
  intros H. apply in_app_or in H. destruct H as [H | [<- | []]].
  - right. apply filter_In in H. destruct H as [H Hne].
    split; [exact H|]. apply negb_true_iff, Z.eqb_neq in Hne. exact Hne.
  - left. reflexivity.
Qed.

Lemma rewrite_ids_in (l : list BlogPost.t) (k : Z) :
  In k (map BlogPost.id l) ->
  In k (map BlogPost.id
          (filter (fun x => negb (Z.eqb (BlogPost.id x) (BlogPost.id p))) l
           ++ [e])).
Proof.
  intros H. apply in_map_iff in H. destruct H as [y [Hy Hin]].
  rewrite map_app. apply in_or_app.
  destruct (Z.eqb_spec (BlogPost.id y) (BlogPost.id p)) as [Heq|Hne].
  - right. left. congruence.
  - left. apply in_map_iff. exists y. split; [exact Hy|].
    apply filter_In. split; [exact Hin|].
    apply negb_true_iff, Z.eqb_neq. exact Hne.
Qed.

Lemma rewrite_ids (l : list BlogPost.t) :
  NoDup (map BlogPost.id l) ->
  NoDup (map BlogPost.id
           (filter (fun x => negb (Z.eqb (BlogPost.id x) (BlogPost.id p))) l
            ++ [e])).
Proof.
  intros H. apply NoDup_map_snoc; [apply NoDup_map_filter; exact H|].
  intros Hin. apply in_map_iff in Hin. destruct Hin as [y [Hy Hin]].
  apply filter_In in Hin. destruct Hin as [_ Hne].
  apply negb_true_iff, Z.eqb_neq in Hne. congruence.
Qed.

Lemma rewrite_titles (l : list BlogPost.t) :
  NoDup (map BlogPost.title l) ->
  existsb (fun x => negb (Z.eqb (BlogPost.id x) (BlogPost.id p))
                    && String.eqb (BlogPost.title x) (BlogPost.title e)) l
  = false ->
  NoDup (map BlogPost.title
           (filter (fun x => negb (Z.eqb (BlogPost.id x) (BlogPost.id p))) l
            ++ [e])).
Proof.
  intros H Hex. apply NoDup_map_snoc; [apply NoDup_map_filter; exact H|].
  intros Hin. apply in_map_iff in Hin. destruct Hin as [y [Hy Hin]].
  apply filter_In in Hin. destruct Hin as [Hin Hne].
  assert (Htrue : existsb (fun x => negb (Z.eqb (BlogPost.id x) (BlogPost.id p))
                                    && String.eqb (BlogPost.title x)
                                                  (BlogPost.title e)) l = true).
  { apply existsb_exists. exists y. split; [exact Hin|].
    rewrite Hne, Hy, String.eqb_refl. reflexivity. }
  congruence.
Qed.

End Rewrite.

Lemma filter_nil_false {A : Type} (f : A -> bool) (l : list A) (x : A) :
  filter f l = [] -> In x l -> f x = false.
Proof.
  intros Hnil Hin. destruct (f x) eqn:Hfx; [|reflexivity].
  assert (Hx : In x (filter f l)) by (apply filter_In; split; assumption).
  rewrite Hnil in Hx. destruct Hx.
Qed.

Lemma in_map_snoc {A B : Type} (key : A -> B) (l : list A) (x : A) (k : B) :
  In k (map key l) -> In k (map key (l ++ [x])).
Proof. intros H. rewrite map_app. apply in_or_app. left. exact H. Qed.

Lemma in_map_last {A B : Type} (key : A -> B) (l : list A) (x : A) :
  In (key x) (map key (l ++ [x])).
Proof. rewrite map_app. apply in_or_app. right. left. reflexivity. Qed.

(** No transition removes a user. *)
Lemma db_step_users (d d' : Db) :
  db_step d d' ->
  users d' = users d \/ exists u, users d' = (users d ++ [u])%list.
Proof.
  intros H. destruct H; simpl; try (left; reflexivity).
  right. exists u. reflexivity.
Qed.

(** A transition keeps a well-formed world well formed. *)
Lemma step_wf (w w' : World) : wf w -> step w w' -> wf w'.
Proof.
  intros [Hu Hui Hue Hp Hpi Hpt Hpa Hc Hci Hcr Hs] [Hdb Hsession].
  assert (Hs' : forall i, _user_id (session w') = Some i ->
                          In i (map User.id (users (db w')))).
  { intros i Hi. destruct Hsession as [Hsame | [Hnone | [u [Hin Hsome]]]].
    - rewrite Hsame in Hi. apply Hs in Hi.
      destruct (db_step_users _ _ Hdb) as [-> | [u ->]];
        [exact Hi | apply in_map_snoc; exact Hi].
    - congruence.
    - rewrite Hsome in Hi. injection Hi as <-. apply in_map. exact Hin. }
  clear Hsession Hs.
  destruct w' as [d' s']. cbn [db session] in *.
  destruct Hdb as
    [ | u Hid Hemail
      | u p Hin Hauthor Hid Htitle
      |
      | u p e Hin Hpin Hauthor Hid Hdate Htitle
      | p Hnone | u p c Hin Hpin Hid Hauthor Hpost ];
    constructor;
    cbn [db session users blog_posts comments users_id_seq blog_posts_id_seq
         comments_id_seq _user_id _flashes] in *; try assumption.
  - (* register *)
    apply Forall_snoc; [|lia].
    apply Forall_impl with (2 := Hu). intros x Hx. lia.
  - apply NoDup_map_snoc; [exact Hui|].
    rewrite Hid. apply below_not_in. exact Hu.
  - apply NoDup_map_snoc; [exact Hue|].
    apply existsb_key_not_in. exact Hemail.
  - apply Forall_impl with (2 := Hpa). intros x Hx. apply in_map_snoc, Hx.
  - apply Forall_impl with (2 := Hcr). intros x [Hx1 Hx2].
    split; [apply in_map_snoc, Hx1 | exact Hx2].
  - (* new post *)
    apply Forall_snoc; [|lia].
    apply Forall_impl with (2 := Hp). intros x Hx. lia.
  - apply NoDup_map_snoc; [exact Hpi|].
    rewrite Hid. apply below_not_in. exact Hp.
  - apply NoDup_map_snoc; [exact Hpt|].
    apply existsb_key_not_in. exact Htitle.
  - apply Forall_snoc; [exact Hpa|].
    rewrite Hauthor. apply in_map. exact Hin.
  - apply Forall_impl with (2 := Hcr). intros x [Hx1 Hx2].
    split; [exact Hx1 | apply in_map_snoc, Hx2].
  - (* refused post *)
    apply Forall_impl with (2 := Hp). intros x Hx. lia.
  - (* edit post *)
    apply Forall_forall. intros y Hy.
    rewrite Forall_forall in Hp.
    apply rewrite_in in Hy. destruct Hy as [-> | [Hy _]].
    + rewrite Hid. apply Hp. exact Hpin.
    + apply Hp. exact Hy.
  - apply rewrite_ids; assumption.
  - apply rewrite_titles; assumption.
  - apply Forall_forall. intros y Hy.
    rewrite Forall_forall in Hpa.
    apply rewrite_in in Hy. destruct Hy as [-> | [Hy _]].
    + rewrite Hauthor. apply in_map. exact Hin.
    + apply Hpa. exact Hy.
  - apply Forall_impl with (2 := Hcr). intros x [Hx1 Hx2].
    split; [exact Hx1 | apply rewrite_ids_in; assumption].
  - (* delete post *)
    apply Forall_filter. exact Hp.
  - apply NoDup_map_filter. exact Hpi.
  - apply NoDup_map_filter. exact Hpt.
  - apply Forall_filter. exact Hpa.
  - apply Forall_forall. intros c Hcin.
    rewrite Forall_forall in Hcr. destruct (Hcr c Hcin) as [Hc1 Hc2].
    split; [exact Hc1|].
    apply in_map_iff in Hc2. destruct Hc2 as [q [Hq Hqin]].
    apply in_map_iff. exists q. split; [exact Hq|].
    apply filter_In. split; [exact Hqin|].
    unfold BlogPost_comments in Hnone.
    pose proof (filter_nil_false _ _ c Hnone Hcin) as Hneq.
    simpl in Hneq. rewrite Hq. rewrite Hneq. reflexivity.
  - (* comment *)
    apply Forall_snoc; [|lia].
    apply Forall_impl with (2 := Hc). intros x Hx. lia.
  - apply NoDup_map_snoc; [exact Hci|].
    rewrite Hid. apply below_not_in. exact Hc.
  - apply Forall_snoc; [exact Hcr|].
    rewrite Hauthor, Hpost. split; apply in_map; assumption.
Qed.


Lemma initial_world_wf : wf initial_world.
Proof.
  constructor; simpl; try constructor. intros i Hi. discriminate Hi.
Qed.

Section Reachable.

Variable generate_password_hash : string -> string -> string.
Variable check_password_hash : string -> string -> bool.

(** Every request keeps the world well formed. *)
Lemma handle_wf (req : Request) (w : World) :
  wf w ->
  wf (snd (handle generate_password_hash check_password_hash req w)).
Proof. intros Hwf. apply step_wf with w; [exact Hwf | apply handle_step]. Qed.

(** Every world that the application reaches from the empty database is
    well formed. *)
Lemma serve_wf (rs : list Request) (w : World) :
  wf w -> wf (serve generate_password_hash check_password_hash rs w).
Proof.
  unfold serve. revert w.
  induction rs as [|r rs IH]; intros w Hwf; simpl; [exact Hwf|].
  apply IH. apply handle_wf. exact Hwf.
Qed.

Lemma reachable_wf (rs : list Request) :
  wf (serve generate_password_hash check_password_hash rs initial_world).
Proof. apply serve_wf, initial_world_wf. Qed.

End Reachable.

(** In a well-formed world the caller's identity always resolves. *)
Lemma wf_current_user (w : World) :
  wf w -> exists cu, current_user w = (inr cu, w).
Proof.
  intros Hwf. destruct (current_user_cases w) as [H | H]; [exact H|].
  exfalso. revert H. unfold current_user. unfold_monad.
  destruct (_user_id (session w)) as [i|] eqn:Hi; [|discriminate].
  pose proof (wf_session w Hwf i Hi) as Hin.
  apply in_map_iff in Hin. destruct Hin as [u [Hu Hin]].
  destruct (get_User i (db w)) as [u'|] eqn:Hget; [discriminate|].
  unfold get_User in Hget.
  apply (find_none _ _ Hget u) in Hin.
  rewrite Hu, Z.eqb_refl in Hin. discriminate.
Qed.

(** What the properties above assume of a world holds of every world that
    the application reaches: the caller's identity resolves, emails are
    unique, and the user id sequence is ahead of the stored ids. *)
Lemma reachable_assumptions
    (generate_password_hash : string -> string -> string)
    (check_password_hash : string -> string -> bool)
    (rs : list Request) :
  let w := serve generate_password_hash check_password_hash rs initial_world in
  (exists cu, current_user w = (inr cu, w))
  /\ NoDup (map User.email (users (db w)))
  /\ Forall (fun u => User.id u < users_id_seq (db w)) (users (db w)).
Proof.
  cbv zeta.
  pose proof (reachable_wf generate_password_hash check_password_hash rs)
    as Hwf.
  split; [apply wf_current_user; exact Hwf|].
  split; [apply wf_emails_unique | apply wf_user_ids]; exact Hwf.
Qed.

(** ** The store at work on the example worlds *)

(** A name of 100 characters is stored, one of 101 is refused: status 500,
    no row, no session. *)
Example register_name_at_width :
  fst (handle toy_hash toy_check
              (req_register
                 (Some (RegisterForm.make "a@x.com" "pa" (text_of_length 100)))
                 "s1")
              initial_world)
  = redirect "get_all_posts" None.
Proof. vm_compute. reflexivity. Qed.

Example register_name_too_long :
  handle toy_hash toy_check
         (req_register
            (Some (RegisterForm.make "a@x.com" "pa" (text_of_length 101)))
            "s1")
         initial_world
  = (error_response 500, initial_world).
Proof. vm_compute. reflexivity. Qed.

(** A title of 251 characters is refused on creation and on edit, and the
    refusal takes no post id. *)
Example new_post_title_too_long :
  handle toy_hash toy_check
         (req_new_post
            (Some (CreatePostForm.make (text_of_length 251) "sub" "img" "body"))
            (date.make 2024 6 7))
         two_posts
  = (error_response 500, two_posts).
Proof. vm_compute. reflexivity. Qed.

Example edit_post_title_too_long :
  handle toy_hash toy_check
         (req_edit_post
            2 (Some (CreatePostForm.make (text_of_length 251) "s" "i" "b")))
         two_posts
  = (error_response 500, two_posts).
Proof. vm_compute. reflexivity. Qed.

(** After a creation that the uniqueness of titles refused, the next post
    gets the id after the one that the refused row took. *)
Example refused_post_takes_an_id :
  map BlogPost.id
      (blog_posts
         (db (serve toy_hash toy_check
                [ req_new_post (Some first_title_again) (date.make 2024 6 7);
                  req_new_post
                    (Some (CreatePostForm.make "Third" "sub" "img" "body"))
                    (date.make 2024 6 8) ]
                two_posts)))
  = [1; 2; 4].
Proof. vm_compute. reflexivity. Qed.

(** An edited post is read after the posts that were not touched. *)
Example edited_post_is_read_last :
  map BlogPost.id
      (blog_posts
         (db (snd (handle toy_hash toy_check
                          (req_edit_post
                             1 (Some (CreatePostForm.make "First" "new sub"
                                                          "img" "body")))
                          two_posts))))
  = [2; 1].
Proof. vm_compute. reflexivity. Qed.

(** * Further properties of the handlers *)

Section Coverage.
Variable generate_password_hash : string -> string -> string.
Variable check_password_hash : string -> string -> bool.

(** X1.  Whatever the request and the world, the answer has status 200,
    302, 401, 404 or 500: the [abort(403)] of [admin_only] is never
    reached, no request is ever answered with 403 Forbidden. *)
Theorem no_request_is_answered_forbidden (req : Request) (w : World) :
  In (status_code
        (fst (handle generate_password_hash check_password_hash req w)))
     [200; 302; 401; 404; 500].
Proof.
  destruct req; run_handler; simpl; tauto.
Qed.

(** X2.  A request that submits no valid form, other than logout and
    delete, writes nothing to the database and leaves the caller logged in
    or out as before, whoever sends it; of the session only the pending
    flash messages can change, which a rendered page takes out. *)
Theorem view_only_requests_change_nothing (req : Request) (w : World) :
  is_view_only req = true ->
  db (snd (handle generate_password_hash check_password_hash req w)) = db w
  /\ _user_id
       (session (snd (handle generate_password_hash check_password_hash
                             req w)))
     = _user_id (session w).
Proof.
  intros Hview.
  destruct req as [ | [f|] salt | [f|] | | | post_id [f|] | [f|] today
                  | post_id [f|] | | | ];
    try discriminate Hview; run_handler; split;
    first [reflexivity | cbn [session _user_id snd]; congruence].
Qed.

(** X3.  A caller without session cannot change the database except by
    registering: every other request, with or without form, leaves the
    three tables and the sequences as they were. *)
Theorem anonymous_caller_writes_only_by_registering
    (req : Request) (w : World) :
  _user_id (session w) = None ->
  is_registration req = false ->
  db (snd (handle generate_password_hash check_password_hash req w)) = db w.
Proof.
  intros Hanon Hreq.
  destruct w as [d [i fl]]. simpl in Hanon. subst i.
  destruct req as [ | [f|] salt | | | | | | | | | ];
    try discriminate Hreq; run_handler; reflexivity.
Qed.

End Coverage.

Section LoginLogout.
Variable generate_password_hash : string -> string -> string.
Variable check_password_hash : string -> string -> bool.

Lemma login_accepted (w : World) (u : User.t) (f : LoginForm.t) :
  _user_id (session w) = None ->
  select_User_by_email (LoginForm.email f) (db w) = Some u ->
  check_password_hash (User.password u) (LoginForm.password f) = true ->
  handle generate_password_hash check_password_hash (req_login (Some f)) w
  = (redirect "get_all_posts" None,
     mkWorld (db w) (mkSession (Some (User.id u)) (_flashes (session w)))).
Proof.
  intros Hanon Hsel Hcheck.
  pose proof (current_user_anonymous w Hanon) as Hcu.
  assert (Hin : In u (users (db w))).
  { unfold select_User_by_email in Hsel. apply find_some in Hsel. apply Hsel. }
  assert (Hget : exists u', get_User (User.id u) (db w) = Some u').
  { unfold get_User.
    destruct (find (fun x => Z.eqb (User.id x) (User.id u)) (users (db w)))
      as [u'|] eqn:Hfind; [exists u'; reflexivity|].
    apply (find_none _ _ Hfind u) in Hin. rewrite Z.eqb_refl in Hin.
    discriminate. }
  destruct Hget as [u' Hget].
  unfold handle, view_function, full_dispatch_request, login.
  rewrite (get_current_user_resolved _ _ _ Hcu).
  unfold login_user. unfold_monad.
  rewrite Hsel, Hcheck. cbn [negb]. rewrite Hcu. cbv beta iota zeta. simpl.
  rewrite Hget. reflexivity.
Qed.

(** X4.  A caller without session who submits the email of a registered
    user and a password that the hash check accepts is redirected to the
    post list and is then logged in as that user; the database is not
    touched. *)
Theorem login_correct_password (w : World) (u : User.t) (f : LoginForm.t) :
  _user_id (session w) = None ->
  NoDup (map User.email (users (db w))) ->
  NoDup (map User.id (users (db w))) ->
  In u (users (db w)) ->
  LoginForm.email f = User.email u ->
  check_password_hash (User.password u) (LoginForm.password f) = true ->
  exists w' : World,
    handle generate_password_hash check_password_hash (req_login (Some f)) w
    = (redirect "get_all_posts" None, w')
    /\ db w' = db w
    /\ _flashes (session w') = _flashes (session w)
    /\ current_user w' = (inr (Authenticated u), w').
Proof.
  intros Hanon Hemails Hids Hin Hemail Hcheck.
  assert (Hsel : select_User_by_email (LoginForm.email f) (db w) = Some u).
  { rewrite Hemail. apply select_User_by_email_unique; assumption. }
  eexists. split; [apply (login_accepted w u f Hanon Hsel Hcheck)|].
  repeat split.
  apply current_user_loaded with (User.id u); [reflexivity|].
  unfold get_User. simpl.
  clear - Hids Hin.
  induction (users (db w)) as [|x l IH]; [destruct Hin|].
  simpl in *. inversion Hids as [|? ? Hx Hl]; subst.
  destruct Hin as [-> | Hin].
  - rewrite Z.eqb_refl. reflexivity.
  - destruct (Z.eqb_spec (User.id x) (User.id u)) as [He|_].
    + exfalso. apply Hx. rewrite He. apply in_map. exact Hin.
    + apply IH; assumption.
Qed.


(** X6.  A caller who is already logged in and submits correct
    credentials, of any account, gets the notice and the redirect to the
    login page, and stays logged in as before: the session is not switched
    to the other account. *)
Theorem login_while_authenticated (w : World) (me u : User.t)
    (f : LoginForm.t) :
  current_user w = (inr (Authenticated me), w) ->
  select_User_by_email (LoginForm.email f) (db w) = Some u ->
  check_password_hash (User.password u) (LoginForm.password f) = true ->
  exists w' : World,
    handle generate_password_hash check_password_hash (req_login (Some f)) w
    = (redirect "login" None, w')
    /\ db w' = db w
    /\ _flashes (session w')
       = (_flashes (session w) ++ [already_logged_in_message])%list
    /\ current_user w' = (inr (Authenticated me), w').
Proof.
  intros Hcu Hsel Hcheck.
  eexists. split.
  - unfold handle, view_function, full_dispatch_request, login.
    rewrite (get_current_user_resolved _ _ _ Hcu).
    unfold flash. unfold_monad.
    rewrite Hsel, Hcheck. cbn [negb]. rewrite Hcu. reflexivity.
  - repeat split.
    apply current_user_ext with w; [reflexivity | reflexivity | exact Hcu].
Qed.

(** X7.  For an authenticated caller [logout] redirects to the post list
    and drops the session: afterwards the caller is anonymous; the database
    is not touched. *)
Theorem logout_authenticated (w : World) (u : User.t) :
  current_user w = (inr (Authenticated u), w) ->
  exists w' : World,
    handle generate_password_hash check_password_hash req_logout w
    = (redirect "get_all_posts" None, w')
    /\ db w' = db w
    /\ _flashes (session w') = _flashes (session w)
    /\ current_user w' = (inr AnonymousUserMixin, w').
Proof.
  intros Hcu. eexists. split.
  - unfold handle, view_function, full_dispatch_request, logout.
    rewrite (get_current_user_resolved _ _ _ Hcu).
    unfold logout_user. unfold_monad. rewrite Hcu. reflexivity.
  - repeat split.
Qed.

End LoginLogout.
Section Lifecycle.
Variable generate_password_hash : string -> string -> string.
Variable check_password_hash : string -> string -> bool.



(** X9.  Deleting an existing post that has no comments, by an
    authenticated caller, redirects to the post list and removes exactly
    that post: its id can no longer be fetched, every other post is still
    there, users, comments and session are unchanged. *)
Theorem delete_post_removes_post (w : World) (u : User.t) (post_id : Z)
    (p : BlogPost.t) :
  current_user w = (inr (Authenticated u), w) ->
  get_BlogPost post_id (db w) = Some p ->
  BlogPost_comments (db w) p = [] ->
  exists w' : World,
    handle generate_password_hash check_password_hash (req_delete post_id) w
    = (redirect "get_all_posts" None, w')
    /\ get_BlogPost post_id (db w') = None
    /\ (forall q, In q (blog_posts (db w')) <->
                  In q (blog_posts (db w)) /\ BlogPost.id q <> post_id)
    /\ users (db w') = users (db w)
    /\ comments (db w') = comments (db w)
    /\ session w' = session w.
Proof.
  intros Hcu Hpost Hnone.
  pose proof (get_BlogPost_id _ _ _ Hpost) as Hid.
  eexists. split.
  - unfold handle, view_function, full_dispatch_request, delete_post.
    rewrite (admin_only_authenticated _ _ _ Hcu).
    rewrite (get_current_user_resolved _ _ _ Hcu).
    unfold delete_BlogPost. unfold_monad.
    rewrite Hpost. cbv beta iota zeta. rewrite Hnone. reflexivity.
  - simpl. rewrite Hid. split; [|split; [|repeat split]].
    + unfold get_BlogPost. simpl.
      apply find_all_false. apply Forall_forall. intros q Hq.
      apply filter_In in Hq. destruct Hq as [_ Hq].
      apply negb_true_iff in Hq. exact Hq.
    + intros q. rewrite filter_In, negb_true_iff, Z.eqb_neq. tauto.
Qed.

(** X10.  For an id that no post has, viewing or commenting answers 404,
    and so do edit and delete for an authenticated caller; nothing
    changes. *)
Theorem missing_post_is_not_found (w : World) (post_id : Z) (cu : Identity) :
  current_user w = (inr cu, w) ->
  get_BlogPost post_id (db w) = None ->
  (forall form,
      handle generate_password_hash check_password_hash
             (req_post post_id form) w = (error_response 404, w))
  /\ (is_authenticated cu = true ->
      (forall form,
          handle generate_password_hash check_password_hash
                 (req_edit_post post_id form) w = (error_response 404, w))
      /\ handle generate_password_hash check_password_hash
                (req_delete post_id) w = (error_response 404, w)).
Proof.
  intros Hcu Hnone. split.
  - intros form.
    unfold handle, view_function, full_dispatch_request, show_post.
    rewrite (get_current_user_resolved _ _ _ Hcu).
    unfold_monad. rewrite Hnone. reflexivity.
  - intros Hauth. destruct cu as [|u]; [discriminate Hauth|].
    split; [intros form|];
      unfold handle, view_function, full_dispatch_request, edit_post,
        delete_post;
      rewrite (admin_only_authenticated _ _ _ Hcu);
      rewrite (get_current_user_resolved _ _ _ Hcu);
      unfold_monad; rewrite Hnone; reflexivity.
Qed.


End Lifecycle.
Section StoreOverTime.
Variable generate_password_hash : string -> string -> string.
Variable check_password_hash : string -> string -> bool.

(** One request leaves the users table alone or appends one row to it. *)
Lemma handle_users (req : Request) (w : World) :
  let w' := snd (handle generate_password_hash check_password_hash req w) in
  users (db w') = users (db w)
  \/ exists u, users (db w') = (users (db w) ++ [u])%list.
Proof.
  cbv zeta. apply db_step_users.
  apply (handle_step generate_password_hash check_password_hash req w).
Qed.

(** X12.  Over any sequence of requests the users table only grows at its
    end: the rows it had are all still there, unchanged and in the same
    order. *)
Theorem users_are_never_removed (rs : list Request) (w : World) :
  exists l : list User.t,
    users (db (serve generate_password_hash check_password_hash rs w))
    = (users (db w) ++ l)%list.
Proof.
  unfold serve. revert w.
  induction rs as [|r rs IH]; intros w; simpl.
  - exists []. rewrite app_nil_r. reflexivity.
  - destruct (IH (snd (handle generate_password_hash check_password_hash r w)))
      as [l Hl].
    destruct (handle_users r w) as [Hsame | [u Hu]]; rewrite Hl.
    + exists l. rewrite Hsame. reflexivity.
    + exists (u :: l). rewrite Hu, <- app_assoc. reflexivity.
Qed.




End StoreOverTime.
Section EditsAndSessions.
Variable generate_password_hash : string -> string -> string.
Variable check_password_hash : string -> string -> bool.



(** X16.  In every world the application reaches from the empty database,
    emails, user ids, post ids, titles and comment ids are unique, the
    author of every post and of every comment is a stored user, and the
    session, if there is one, belongs to a stored user. *)
Theorem reachable_store_is_consistent (rs : list Request) :
  let w := serve generate_password_hash check_password_hash rs initial_world in
  NoDup (map User.email (users (db w)))
  /\ NoDup (map User.id (users (db w)))
  /\ NoDup (map BlogPost.id (blog_posts (db w)))
  /\ NoDup (map BlogPost.title (blog_posts (db w)))
  /\ NoDup (map Comment.id (comments (db w)))
  /\ (forall p, In p (blog_posts (db w)) ->
        exists u, get_User (BlogPost.author_id p) (db w) = Some u)
  /\ (forall c, In c (comments (db w)) ->
        exists u, get_User (Comment.author_id c) (db w) = Some u)
  /\ (forall i, _user_id (session w) = Some i ->
        exists u, get_User i (db w) = Some u).
Proof.
  cbv zeta.
  pose proof (reachable_wf generate_password_hash check_password_hash rs)
    as Hwf.
  set (w := serve _ _ rs initial_world) in *.
  assert (Hload : forall i, In i (map User.id (users (db w))) ->
                            exists u, get_User i (db w) = Some u).
  { intros i Hi. apply in_map_iff in Hi. destruct Hi as [x [Hx Hin]].
    unfold get_User.
    destruct (find (fun u => Z.eqb (User.id u) i) (users (db w)))
      as [u|] eqn:Hfind; [exists u; reflexivity|].
    apply (find_none _ _ Hfind x) in Hin.
    rewrite Hx, Z.eqb_refl in Hin. discriminate. }
  destruct Hwf as [_ Hui Hue _ Hpi Hpt Hpa _ Hci Hcr Hs].
  repeat split; try assumption.
  - intros p Hp. apply Hload. rewrite Forall_forall in Hpa. apply Hpa, Hp.
  - intros c Hc. apply Hload. rewrite Forall_forall in Hcr. apply Hcr, Hc.
  - intros i Hi. apply Hload, Hs, Hi.
Qed.

(** X17.  When the session names a user id that is not in the store, every
    route except [/all-users] answers 404, because [load_user] fetches the
    user with [get_or_404]; nothing changes. *)
Theorem stale_session_is_not_found (req : Request) (w : World) (i : Z) :
  _user_id (session w) = Some i ->
  get_User i (db w) = None ->
  req <> req_all_users ->
  handle generate_password_hash check_password_hash req w
  = (error_response 404, w).
Proof.
  intros Hs Hget Hreq.
  assert (Hcu : current_user w = (inl (HTTPException 404), w)).
  { unfold current_user. unfold_monad. rewrite Hs, Hget. reflexivity. }
  destruct req; try (exfalso; apply Hreq; reflexivity);
    unfold handle, view_function, full_dispatch_request;
    cbv [register login logout get_all_posts show_post add_new_post
         edit_post delete_post about contact];
    first [ rewrite (admin_only_stale _ _ _ Hcu)
          | rewrite (get_current_user_stale _ _ _ Hcu) ];
    reflexivity.
Qed.

(** X18.  The user of the session changes only in three ways: logout drops
    it, a registration with a new email sets it to the new user, and a
    login sets it to a stored user with the submitted email whose stored
    hash the check accepts for the submitted password. *)
Theorem session_changes_only_by_login_register_logout
    (req : Request) (w : World) :
  let w' := snd (handle generate_password_hash check_password_hash req w) in
  _user_id (session w') = _user_id (session w)
  \/ (req = req_logout /\ _user_id (session w') = None)
  \/ (exists f u,
        req = req_login (Some f)
        /\ In u (users (db w))
        /\ User.email u = LoginForm.email f
        /\ check_password_hash (User.password u) (LoginForm.password f) = true
        /\ _user_id (session w') = Some (User.id u))
  \/ (exists f salt,
        req = req_register (Some f) salt
        /\ select_User_by_email (RegisterForm.email f) (db w) = None
        /\ _user_id (session w') = Some (users_id_seq (db w))).
Proof.
  cbv zeta.
  destruct req; run_handler;
    try (left; first [reflexivity | assumption | congruence]).
  all: try (right; left; split; reflexivity).
  all: try (right; right; right; do 2 eexists;
            repeat split; [eassumption]).
  all: right; right; left.
  all: match goal with
       | Hsel : select_User_by_email _ _ = Some ?u |- _ =>
           eexists; exists u;
           unfold select_User_by_email in Hsel; apply find_some in Hsel;
           destruct Hsel as [Hin Hmail]; apply String.eqb_eq in Hmail;
           split; [reflexivity|]; split; [exact Hin|];
           split; [exact Hmail|]; split; [assumption | reflexivity]
       end.
Qed.

End EditsAndSessions.
Ltac month_cases m :=
  let Hc := fresh "Hc" in
  assert (m = 1 \/ m = 2 \/ m = 3 \/ m = 4 \/ m = 5 \/ m = 6 \/ m = 7
          \/ m = 8 \/ m = 9 \/ m = 10 \/ m = 11 \/ m = 12) as Hc by lia;
  repeat (destruct Hc as [Hc | Hc]); subst m.

Lemma stamp_parts (m1 m2 : Z) (a1 b1 a2 b2 : ascii) (t1 t2 : string) :
  1 <= m1 <= 12 -> 1 <= m2 <= 12 ->
  (strftime_B m1 ++ " " ++ String a1 (String b1 "") ++ ", " ++ t1)%string
  = (strftime_B m2 ++ " " ++ String a2 (String b2 "") ++ ", " ++ t2)%string ->
  m1 = m2 /\ a1 = a2 /\ b1 = b2 /\ t1 = t2.
Proof.
  intros H1 H2 H.
  month_cases m1; month_cases m2; cbn in H; try discriminate H;
    injection H as -> -> ->; repeat split.
Qed.

(** X19.  The stamp determines the date: two dates (years 1000 to 9999)
    with the same [strftime("%B %d, %Y")] text are the same date. *)
Theorem stamps_of_distinct_dates_differ (d1 d2 : date.t) :
  stamp_date d1 -> stamp_date d2 ->
  strftime_B_d_Y d1 = strftime_B_d_Y d2 ->
  d1 = d2.
Proof.
  intros [Hm1 [Hd1 Hy1]] [Hm2 [Hd2 Hy2]] H.
  destruct d1 as [y1 m1 dd1], d2 as [y2 m2 dd2]. simpl in *.
  unfold strftime_B_d_Y, strftime_d in H. simpl in H.
  apply stamp_parts in H; [|assumption|assumption].
  destruct H as [Hm [Ha [Hb Hy]]].
  assert (Hd : strftime_d dd1 = strftime_d dd2)
    by (unfold strftime_d; rewrite Ha, Hb; reflexivity).
  destruct (strftime_d_two_digits dd1 Hd1) as [_ Hv1].
  destruct (strftime_d_two_digits dd2 Hd2) as [_ Hv2].
  destruct (strftime_Y_four_digits y1 Hy1) as [_ Hw1].
  destruct (strftime_Y_four_digits y2 Hy2) as [_ Hw2].
  rewrite Hd in Hv1. rewrite Hy in Hw1.
  assert (dd1 = dd2) by congruence.
  assert (y1 = y2) by congruence.
  subst. reflexivity.
Qed.
Section CreateDelete.
Variable generate_password_hash : string -> string -> string.
Variable check_password_hash : string -> string -> bool.



End CreateDelete.
Ltac run_request :=
  unfold_handlers;
  cbn beta iota zeta delta
    [fst snd db blog_posts users comments session _user_id _flashes
     users_id_seq blog_posts_id_seq comments_id_seq];
  repeat (break_match;
          cbn beta iota zeta delta
            [fst snd db blog_posts users comments session _user_id _flashes
             users_id_seq blog_posts_id_seq comments_id_seq]).

Lemma selected_user_loads (e : string) (d : Db) (u : User.t) :
  select_User_by_email e d = Some u -> get_User (User.id u) d <> None.
Proof.
  unfold select_User_by_email, get_User. intros Hsel Hnone.
  apply find_some in Hsel. destruct Hsel as [Hin _].
  apply (find_none _ _ Hnone u) in Hin. rewrite Z.eqb_refl in Hin.
  discriminate.
Qed.

Section Refusals.
Variable generate_password_hash : string -> string -> string.
Variable check_password_hash : string -> string -> bool.

(** X21.  The answer is 401 exactly when a caller without session asks for
    new-post, edit-post or delete; in that case nothing changes. *)
Theorem unauthorized_exactly_for_anonymous_on_admin_routes
    (req : Request) (w : World) :
  (status_code
     (fst (handle generate_password_hash check_password_hash req w)) = 401
   <-> is_admin_route req = true /\ _user_id (session w) = None)
  /\ (is_admin_route req = true -> _user_id (session w) = None ->
      handle generate_password_hash check_password_hash req w
      = (error_response 401, w)).
Proof.
  split.
  - destruct req; run_handler; simpl; split; intros H;
      try discriminate H;
      try (match type of H with
           | _ /\ _ =>
               let H1 := fresh in let H2 := fresh in
               destruct H as [H1 H2];
               first [discriminate H1 | discriminate H2]
           end);
      try (split; reflexivity).
  - intros Hroute Hanon.
    pose proof (current_user_anonymous w Hanon) as Hcu.
    destruct req; try discriminate Hroute;
      unfold handle, view_function, full_dispatch_request;
      cbv [add_new_post edit_post delete_post];
      rewrite (admin_only_anonymous _ _ Hcu); reflexivity.
Qed.

(** X22.  When the caller's identity resolves, a 404 answer means that the
    request addresses a post id that is not in the store. *)
Theorem not_found_means_missing_post (req : Request) (w : World)
    (cu : Identity) :
  current_user w = (inr cu, w) ->
  status_code
    (fst (handle generate_password_hash check_password_hash req w)) = 404 ->
  exists post_id,
    requested_post req = Some post_id
    /\ get_BlogPost post_id (db w) = None.
Proof.
  intros Hcu.
  destruct w as [d [[i|] fl]].
  - assert (Hget : exists u, get_User i d = Some u).
    { revert Hcu. unfold current_user. unfold_monad. simpl.
      destruct (get_User i d) as [u|]; [exists u; reflexivity | discriminate]. }
    destruct Hget as [u Hget]. clear Hcu.
    destruct req; run_request; simpl; intros H; try discriminate H;
      try congruence;
      try (unfold get_User in *; simpl in *; congruence);
      try (exfalso; eapply selected_user_loads; eassumption);
      eexists; split; first [reflexivity | eassumption].
  - clear Hcu.
    destruct req; run_request; simpl; intros H; try discriminate H;
      try congruence;
      try (unfold get_User in *; simpl in *; congruence);
      try (exfalso; eapply selected_user_loads; eassumption);
      eexists; split; first [reflexivity | eassumption].
Qed.

End Refusals.
Section ServerErrors.
Variable generate_password_hash : string -> string -> string.
Variable check_password_hash : string -> string -> bool.



End ServerErrors.


(** ** Instances of the properties above on the example worlds *)

Lemma view_only_requests_change_nothing_witness :
  db (snd (handle toy_hash toy_check (req_post 1 None) bob_logged_in))
  = db bob_logged_in
  /\ _user_id
       (session (snd (handle toy_hash toy_check (req_post 1 None)
                             bob_logged_in)))
     = _user_id (session bob_logged_in).
Proof.
  apply (view_only_requests_change_nothing toy_hash toy_check
           (req_post 1 None) bob_logged_in).
  reflexivity.
Defined.

Lemma anonymous_caller_writes_only_by_registering_witness :
  db (snd (handle toy_hash toy_check
                  (req_post 1 (Some (CommentForm.make "hello")))
                  everyone_logged_out))
  = db everyone_logged_out.
Proof.
  apply (anonymous_caller_writes_only_by_registering toy_hash toy_check
           (req_post 1 (Some (CommentForm.make "hello")))
           everyone_logged_out); reflexivity.
Defined.

Lemma login_correct_password_witness :
  exists w' : World,
    handle toy_hash toy_check
           (req_login (Some (LoginForm.make "a@x.com" "pa")))
           everyone_logged_out
    = (redirect "get_all_posts" None, w')
    /\ db w' = db everyone_logged_out
    /\ _flashes (session w') = _flashes (session everyone_logged_out)
    /\ current_user w' = (inr (Authenticated alice), w').
Proof.
  apply (login_correct_password toy_hash toy_check everyone_logged_out alice
           (LoginForm.make "a@x.com" "pa")).
  - reflexivity.
  - simpl. repeat constructor; simpl; intuition discriminate.
  - simpl. repeat constructor; simpl; intuition discriminate.
  - simpl. left. reflexivity.
  - reflexivity.
  - reflexivity.
Defined.


Lemma login_while_authenticated_witness :
  exists w' : World,
    handle toy_hash toy_check
           (req_login (Some (LoginForm.make "a@x.com" "pa"))) bob_logged_in
    = (redirect "login" None, w')
    /\ db w' = db bob_logged_in
    /\ _flashes (session w') = [already_logged_in_message]
    /\ current_user w' = (inr (Authenticated bob), w').
Proof.
  apply (login_while_authenticated toy_hash toy_check bob_logged_in bob alice
           (LoginForm.make "a@x.com" "pa")); reflexivity.
Defined.

Lemma logout_authenticated_witness :
  exists w' : World,
    handle toy_hash toy_check req_logout bob_logged_in
    = (redirect "get_all_posts" None, w')
    /\ db w' = db bob_logged_in
    /\ _flashes (session w') = _flashes (session bob_logged_in)
    /\ current_user w' = (inr AnonymousUserMixin, w').
Proof.
  apply (logout_authenticated toy_hash toy_check bob_logged_in bob).
  reflexivity.
Defined.


Lemma delete_post_removes_post_witness :
  exists w' : World,
    handle toy_hash toy_check (req_delete 1) bob_logged_in
    = (redirect "get_all_posts" None, w')
    /\ get_BlogPost 1 (db w') = None
    /\ (forall q, In q (blog_posts (db w')) <->
                  In q (blog_posts (db bob_logged_in)) /\ BlogPost.id q <> 1)
    /\ users (db w') = users (db bob_logged_in)
    /\ comments (db w') = comments (db bob_logged_in)
    /\ session w' = session bob_logged_in.
Proof.
  apply (delete_post_removes_post toy_hash toy_check bob_logged_in bob 1
           (BlogPost.make 1 1 "P1" "sub" "June 05, 2024" "body" "img"));
    reflexivity.
Defined.

Lemma missing_post_is_not_found_witness :
  (forall form,
      handle toy_hash toy_check (req_post 9 form) bob_logged_in
      = (error_response 404, bob_logged_in))
  /\ (is_authenticated (Authenticated bob) = true ->
      (forall form,
          handle toy_hash toy_check (req_edit_post 9 form) bob_logged_in
          = (error_response 404, bob_logged_in))
      /\ handle toy_hash toy_check (req_delete 9) bob_logged_in
         = (error_response 404, bob_logged_in)).
Proof.
  apply (missing_post_is_not_found toy_hash toy_check bob_logged_in 9
           (Authenticated bob)); reflexivity.
Defined.




Lemma stale_session_is_not_found_witness :
  handle toy_hash toy_check req_index stale_cookie
  = (error_response 404, stale_cookie).
Proof.
  apply (stale_session_is_not_found toy_hash toy_check req_index stale_cookie
           7).
  - reflexivity.
  - reflexivity.
  - discriminate.
Defined.

Lemma stamps_of_distinct_dates_differ_witness :
  date.make 2024 3 3 = date.make 2024 3 3.
Proof.
  apply (stamps_of_distinct_dates_differ (date.make 2024 3 3)
           (date.make 2024 3 3)).
  - unfold stamp_date. simpl. lia.
  - unfold stamp_date. simpl. lia.
  - reflexivity.
Defined.


Lemma not_found_means_missing_post_witness :
  exists post_id,
    requested_post (req_post 9 None) = Some post_id
    /\ get_BlogPost post_id (db bob_logged_in) = None.
Proof.
  apply (not_found_means_missing_post toy_hash toy_check (req_post 9 None)
           bob_logged_in (Authenticated bob)); reflexivity.
Defined.

